(** * SmartFire: the alert pipeline, from flame sensor to notification

    A shallow embedding of the two programs of the repository that carry
    the alert pipeline, and the properties of that pipeline.

    - [Firmware] embeds [esp32_smartfire.ino]: the severity classifier,
      the GPS validity test, the timestamp and the [/fire-alert] handler.
    - [App] embeds the polling client of [components/map-imports.ts]: the
      poll tick [pollESP32Endpoint], [parseESP32Timestamp],
      [triggerFireAlertNotification] and [generateTestFireAlert].

    Conventions.  Machine integers are [Z].  A coordinate is an exact
    decimal with six fractional digits, kept as an integer number of
    micro-degrees (the wire format prints six decimals); the rounding of
    binary floating point is not part of the model.  Instants are
    milliseconds since the epoch. *)

From Stdlib Require Import ZArith String Ascii List Lia Bool DecimalString.
From Stdlib Require Import DecimalN.
From stdpp Require Import base strings list gmap.

Open Scope string_scope.
Open Scope Z_scope.

(** ** Text helpers shared by both programs *)

(** The double quote character, as a one-character string. *)
Definition dquote : string := String (ascii_of_nat 34) EmptyString.

(** Decimal digits of a non-negative integer ([String(n)] in the firmware,
    [String(n)] of an integer-valued number in the client). *)
Definition decimal (n : Z) : string :=
  NilZero.string_of_uint (N.to_uint (Z.to_N n)).

(** [s] left-padded with zeros up to [width] characters. *)
Fixpoint zeros (k : nat) : string :=
  match k with
  | O => EmptyString
  | S k' => String "0" (zeros k')
  end.

Definition padLeft (width : nat) (s : string) : string :=
  zeros (width - String.length s)%nat +:+ s.

(** A number of micro-degrees printed with a fixed number [digits] (at most
    six) of decimals, the remaining decimals being dropped after rounding
    half away from zero; a negative number keeps its sign when it rounds
    to zero.  [String(x, 6)] in the firmware and [x.toFixed(4)] in the
    client. *)
Definition fixedDecimals (digits : nat) (micro : Z) : string :=
  let unit := 10 ^ Z.of_nat (6 - digits)%nat in
  let scaled := (2 * Z.abs micro + unit) / (2 * unit) in
  let p := 10 ^ Z.of_nat digits in
  let sign := if micro <? 0 then "-" else EmptyString in
  sign +:+ decimal (scaled / p) +:+
  match digits with
  | O => EmptyString
  | _ => "." +:+ padLeft digits (decimal (scaled mod p))
  end.

(** ** The firmware: [esp32_smartfire.ino] *)

Module Firmware.

(** Severity thresholds (analog values 0-4095; lower = stronger flame). *)
Definition EXTREME_THRESHOLD : Z := 500.
Definition HIGH_THRESHOLD : Z := 1000.
Definition MODERATE_THRESHOLD : Z := 2000.
Definition LOW_THRESHOLD : Z := 3000.

(** The five strings [classifySeverity] can return. *)
Inductive Severity : Type := EXTREME | HIGH | MODERATE | LOW | NONE.

(** The text of a level, as it is put on the wire. *)
Definition severityString (s : Severity) : string :=
  match s with
  | EXTREME => "EXTREME"
  | HIGH => "HIGH"
  | MODERATE => "MODERATE"
  | LOW => "LOW"
  | NONE => "NONE"
  end.

(** Urgency of a level: EXTREME > HIGH > MODERATE > LOW > NONE. *)
Definition urgency (s : Severity) : Z :=
  match s with
  | EXTREME => 4
  | HIGH => 3
  | MODERATE => 2
  | LOW => 1
  | NONE => 0
  end.

(** [String classifySeverity(int sensorValue)] *)
Definition classifySeverity (sensorValue : Z) : Severity :=
  if sensorValue <? EXTREME_THRESHOLD then EXTREME
  else if sensorValue <? HIGH_THRESHOLD then HIGH
  else if sensorValue <? MODERATE_THRESHOLD then MODERATE
  else if sensorValue <? LOW_THRESHOLD then LOW
  else NONE.

(** What the handler reads from [gps.location] (TinyGPS++) after
    [readGPS()] has drained the serial port: the fix indicator, the age of
    the fix in milliseconds (an unsigned 32-bit value) and the coordinates,
    in micro-degrees. *)
Record GpsLocation : Type := mkGps {
  loc_isValid : bool;
  loc_age : Z;
  loc_lat : Z;
  loc_lng : Z
}.

(** [bool isGPSValid()] *)
Definition isGPSValid (gps : GpsLocation) : bool :=
  loc_isValid gps && (loc_age gps <? 2000).

(** [String getTimestamp()], from the value [millis()] returns. *)
Definition getTimestamp (currentMillis : Z) : string :=
  let seconds := currentMillis / 1000 in
  let minutes := seconds / 60 in
  let hours := minutes / 60 in
  let timestamp := "2026-01-22 " in
  let timestamp :=
    if hours mod 24 <? 10 then timestamp +:+ "0" else timestamp in
  let timestamp := timestamp +:+ decimal (hours mod 24) in
  let timestamp := timestamp +:+ ":" in
  let timestamp :=
    if minutes mod 60 <? 10 then timestamp +:+ "0" else timestamp in
  let timestamp := timestamp +:+ decimal (minutes mod 60) in
  timestamp.

(** What [server.send] is given. *)
Record HttpResponse : Type := mkResponse {
  res_status : Z;
  res_contentType : string;
  res_body : string
}.

(** [void handleFireAlert()]: [sensorValue] is the value of [analogRead],
    [gps] the location object after [readGPS()], [currentMillis] the value
    of [millis()]. *)
Definition handleFireAlert (sensorValue : Z) (gps : GpsLocation)
    (currentMillis : Z) : HttpResponse :=
  let severity := severityString (classifySeverity sensorValue) in
  let jsonResponse := "{" in
  let jsonResponse :=
    jsonResponse +:+ (dquote +:+ "severity" +:+ dquote +:+ ":" +:+ dquote
                      +:+ severity +:+ dquote +:+ ",") in
  let jsonResponse :=
    jsonResponse +:+ (dquote +:+ "time" +:+ dquote +:+ ":" +:+ dquote
                      +:+ getTimestamp currentMillis +:+ dquote +:+ ",") in
  let jsonResponse :=
    if isGPSValid gps then
      let jsonResponse :=
        jsonResponse +:+ (dquote +:+ "latitude" +:+ dquote +:+ ":"
                          +:+ fixedDecimals 6 (loc_lat gps) +:+ ",") in
      jsonResponse +:+ (dquote +:+ "longitude" +:+ dquote +:+ ":"
                        +:+ fixedDecimals 6 (loc_lng gps))
    else
      let jsonResponse :=
        jsonResponse +:+ (dquote +:+ "latitude" +:+ dquote +:+ ":16.615,") in
      jsonResponse +:+ (dquote +:+ "longitude" +:+ dquote +:+ ":120.316") in
  let jsonResponse := jsonResponse +:+ "}" in
  mkResponse 200 "application/json" jsonResponse.

(** The body of the wire protocol: a JSON object with the four members
    [severity], [time], [latitude], [longitude], the last two given by
    their number text. *)
Definition snapshotJson (severity time latitude longitude : string) : string :=
  "{" +:+ dquote +:+ "severity" +:+ dquote +:+ ":" +:+ dquote +:+ severity
  +:+ dquote +:+ "," +:+ dquote +:+ "time" +:+ dquote +:+ ":" +:+ dquote
  +:+ time +:+ dquote +:+ "," +:+ dquote +:+ "latitude" +:+ dquote +:+ ":"
  +:+ latitude +:+ "," +:+ dquote +:+ "longitude" +:+ dquote +:+ ":"
  +:+ longitude +:+ "}".

End Firmware.


(** ** The JavaScript primitives the client uses *)

Module JS.

(** [Boolean(s)] for a string: every string but the empty one is truthy. *)
Definition truthy (s : string) : bool :=
  match s with
  | EmptyString => false
  | String _ _ => true
  end.

(** [s.toLowerCase()] on the ASCII letters. *)
Definition lowerAscii (c : ascii) : ascii :=
  let n := nat_of_ascii c in
  if (65 <=? n)%nat && (n <=? 90)%nat then ascii_of_nat (n + 32) else c.

Fixpoint toLowerCase (s : string) : string :=
  match s with
  | EmptyString => EmptyString
  | String c rest => String (lowerAscii c) (toLowerCase rest)
  end.

(** [s.split(sep)] for a one-character separator: the pieces between the
    separators, always at least one piece. *)
Fixpoint split (sep : ascii) (s : string) : list string :=
  match s with
  | EmptyString => [EmptyString]
  | String c rest =>
      if Ascii.eqb c sep then EmptyString :: split sep rest
      else match split sep rest with
           | piece :: pieces => String c piece :: pieces
           | [] => [String c EmptyString]
           end
  end.

(** A JavaScript number, as far as the client's dates need it: an integer
    or [NaN]. *)
Inductive Num : Type := Int (z : Z) | NaN.

Definition isWhiteSpace (c : ascii) : bool :=
  let n := nat_of_ascii c in
  ((9 <=? n)%nat && (n <=? 13)%nat) || (n =? 32)%nat.

Fixpoint trimStart (s : string) : string :=
  match s with
  | String c rest => if isWhiteSpace c then trimStart rest else s
  | EmptyString => EmptyString
  end.

Fixpoint trimEnd (s : string) : string :=
  match s with
  | EmptyString => EmptyString
  | String c rest =>
      match trimEnd rest with
      | EmptyString => if isWhiteSpace c then EmptyString else String c EmptyString
      | rest' => String c rest'
      end
  end.

Definition digitValue (c : ascii) : option Z :=
  let n := nat_of_ascii c in
  if (48 <=? n)%nat && (n <=? 57)%nat then Some (Z.of_nat n - 48) else None.

(** The value of a run of decimal digits read after [acc]; [None] when a
    character is not a digit. *)
Fixpoint digitsValue (acc : Z) (s : string) : option Z :=
  match s with
  | EmptyString => Some acc
  | String c rest =>
      match digitValue c with
      | Some d => digitsValue (10 * acc + d) rest
      | None => None
      end
  end.

Definition unsignedValue (s : string) : Num :=
  match s with
  | EmptyString => NaN
  | _ => match digitsValue 0 s with Some z => Int z | None => NaN end
  end.

(** [Number(s)] on the strings that spell a decimal integer: white space
    around the text is dropped, the empty text is [0], a sign may precede
    the digits.  Every other text is read as [NaN] here; the texts that
    JavaScript reads as a fraction, with an exponent, in another base or
    as [Infinity] are outside this model. *)
Definition Number (s : string) : Num :=
  match trimEnd (trimStart s) with
  | EmptyString => Int 0
  | String "+" rest => unsignedValue rest
  | String "-" rest =>
      match unsignedValue rest with Int z => Int (- z) | NaN => NaN end
  | text => unsignedValue text
  end.

(** [a - b] on numbers. *)
Definition sub (a b : Num) : Num :=
  match a, b with
  | Int x, Int y => Int (x - y)
  | _, _ => NaN
  end.

(** A [Date] object: its time value, in milliseconds since the epoch
    (UTC), or an invalid date. *)
Inductive Date : Type := TimeValue (t : Z) | InvalidDate.

Definition msPerDay : Z := 86400000.

(** ECMAScript's [DayFromYear], the leap-year test and the first day of a
    month within its year. *)
Definition DayFromYear (y : Z) : Z :=
  365 * (y - 1970) + (y - 1969) / 4 - (y - 1901) / 100 + (y - 1601) / 400.

Definition inLeapYear (y : Z) : bool :=
  ((y mod 4 =? 0) && negb (y mod 100 =? 0)) || (y mod 400 =? 0).

Definition dayWithinYear (leap : bool) (mn : Z) : Z :=
  let l := if leap then 1 else 0 in
  match mn with
  | 0 => 0
  | 1 => 31
  | 2 => 59 + l
  | 3 => 90 + l
  | 4 => 120 + l
  | 5 => 151 + l
  | 6 => 181 + l
  | 7 => 212 + l
  | 8 => 243 + l
  | 9 => 273 + l
  | 10 => 304 + l
  | _ => 334 + l
  end.

(** [MakeDay(year, month, date)] on integers. *)
Definition MakeDay (year month date : Z) : Z :=
  let ym := year + month / 12 in
  let mn := month mod 12 in
  DayFromYear ym + dayWithinYear (inLeapYear ym) mn + date - 1.

(** [MakeTime(hour, min, 0, 0)]. *)
Definition MakeTime (hour min : Z) : Z :=
  hour * 3600000 + min * 60000.

(** [TimeClip]. *)
Definition TimeClip (t : Z) : Date :=
  if Z.abs t <=? 8640000000000000 then TimeValue t else InvalidDate.

(** [new Date(year, month, day, hours, minutes)]: the five numbers are
    read as a local wall-clock time, [localTZA] being the offset of local
    time from UTC in milliseconds (taken constant).  Fields may lie
    outside their usual range and then carry over; a [NaN] field gives an
    invalid date.  Arithmetic is exact. *)
Definition newDate (localTZA : Z) (year month day hours minutes : Num) : Date :=
  match year, month, day, hours, minutes with
  | Int y, Int m, Int dt, Int h, Int mi =>
      let yr := if (0 <=? y) && (y <=? 99) then 1900 + y else y in
      TimeClip (MakeDay yr m dt * msPerDay + MakeTime h mi - localTZA)
  | _, _, _, _, _ => InvalidDate
  end.

(** Trailing zeros removed. *)
Fixpoint stripTrailingZeros (s : string) : string :=
  match s with
  | EmptyString => EmptyString
  | String c rest =>
      match stripTrailingZeros rest with
      | EmptyString => if Ascii.eqb c "0" then EmptyString else String c EmptyString
      | rest' => String c rest'
      end
  end.

(** [String(x)] (as in a template literal) for a coordinate [x] given in
    micro-degrees: the shortest decimal text of the number. *)
Definition numberToString (micro : Z) : string :=
  let sign := if micro <? 0 then "-" else EmptyString in
  let whole := Z.abs micro / 1000000 in
  let frac := stripTrailingZeros (padLeft 6 (decimal (Z.abs micro mod 1000000))) in
  sign +:+ decimal whole +:+
  match frac with
  | EmptyString => EmptyString
  | _ => "." +:+ frac
  end.

End JS.

(** ** The client: [components/map-imports.ts] *)

Module App.

Import JS.

(** *** Data *)

(** [interface ESP32FireAlert]: the parsed response of the firmware. *)
Record ESP32FireAlert : Type := mkData {
  data_severity : string;
  data_time : string;
  data_latitude : Z;
  data_longitude : Z
}.

Record Coordinates : Type := mkCoordinates { lat : Z; lng : Z }.

Inductive Status : Type := active | resolved.

(** [interface FireAlert]: an alert of the application. *)
Record FireAlert : Type := mkAlert {
  alert_id : Z;
  alert_severity : string;
  alert_location : string;
  alert_coordinates : Coordinates;
  alert_time : Date;
  alert_status : Status
}.

(** [Notifications.AndroidNotificationPriority]. *)
Inductive AndroidNotificationPriority : Type :=
  PriorityMIN | PriorityLOW | PriorityDEFAULT | PriorityHIGH | PriorityMAX.

Definition priorityRank (p : AndroidNotificationPriority) : Z :=
  match p with
  | PriorityMIN => 0
  | PriorityLOW => 1
  | PriorityDEFAULT => 2
  | PriorityHIGH => 3
  | PriorityMAX => 4
  end.

(** The [data] member of a notification's content. *)
Record NotificationData : Type := mkNotificationData {
  data_alertId : Z;
  data_alertSeverity : string;
  data_coordinates : Coordinates
}.

(** The [content] given to [Notifications.scheduleNotificationAsync]
    (always with [trigger: null]); a member the caller leaves out, or sets
    to [undefined], is [None]. *)
Record NotificationContentInput : Type := mkContent {
  content_title : option string;
  content_body : option string;
  content_sound : option bool;
  content_priority : option AndroidNotificationPriority;
  content_data : NotificationData
}.

(** The values of the state variables that a function created during a
    render reads: a function keeps the values of the render it was created
    in. *)
Record Render : Type := mkRender {
  seen_esp32IpAddress : string;
  seen_lastAlertHash : string
}.

(** The state of the component, with the interval of the poller (the
    render whose [pollESP32Endpoint] it calls) and the requests handed to
    the notification facility so far, most recent first. *)
Record State : Type := mkState {
  alerts : list FireAlert;
  showAlert : option FireAlert;
  lastAlertHash : string;
  esp32IpAddress : string;
  isPolling : bool;
  pollingIntervalRef : option Render;
  scheduled : list NotificationContentInput
}.

(** What is fixed for a run: [Platform.OS] and the offset of local time
    from UTC, in milliseconds. *)
Record Env : Type := mkEnv {
  platformOS : string;
  localTZA : Z
}.

(** What a [fetch] of the endpoint comes back with: a rejection (timeout
    of the abort signal, connection refused, no route), or a response with
    its status and a body that [response.json()] parses or rejects. *)
Inductive Body : Type :=
| BodyJson (data : ESP32FireAlert)
| BodyMalformed.

Inductive FetchOutcome : Type :=
| FetchRejected
| FetchResponse (status : Z) (body : Body).

(** [response.ok] *)
Definition response_ok (status : Z) : bool := (200 <=? status) && (status <=? 299).

(** *** Exceptions and state *)

Inductive Exn : Type :=
| TypeError
| SyntaxError
| FetchError
| HttpError (status : Z).

Inductive Completion (A : Type) : Type :=
| Normal (a : A)
| Throw (e : Exn).
Arguments Normal {A} a.
Arguments Throw {A} e.

(** A computation on the state of the component that returns or throws;
    what it did to the state before throwing stays done. *)
Definition M (A : Type) : Type := State -> Completion A * State.

Definition ret {A : Type} (a : A) : M A := fun st => (Normal a, st).

Definition bind {A B : Type} (m : M A) (k : A -> M B) : M B :=
  fun st =>
    match m st with
    | (Normal a, st') => k a st'
    | (Throw e, st') => (Throw e, st')
    end.

Definition throw {A : Type} (e : Exn) : M A := fun st => (Throw e, st).

(** [try { body } catch (error) { handler }] *)
Definition tryCatch {A : Type} (body : M A) (handler : Exn -> M A) : M A :=
  fun st =>
    match body st with
    | (Normal a, st') => (Normal a, st')
    | (Throw e, st') => handler e st'
    end.

Notation "x <- m ;; k" := (bind m (fun x => k))
  (at level 100, m at next level, right associativity).
Notation "m ;;; k" := (bind m (fun _ => k))
  (at level 100, right associativity).

(** The state a computation leaves, and how it completes. *)
Definition exec {A : Type} (m : M A) (st : State) : State := snd (m st).
Definition completion {A : Type} (m : M A) (st : State) : Completion A := fst (m st).

(** The state setters. *)
Definition setLastAlertHash (h : string) : M unit :=
  fun st => (Normal tt,
             mkState (alerts st) (showAlert st) h (esp32IpAddress st)
                     (isPolling st) (pollingIntervalRef st) (scheduled st)).

Definition setShowAlert (a : option FireAlert) : M unit :=
  fun st => (Normal tt,
             mkState (alerts st) a (lastAlertHash st) (esp32IpAddress st)
                     (isPolling st) (pollingIntervalRef st) (scheduled st)).

Definition setIsPolling (b : bool) : M unit :=
  fun st => (Normal tt,
             mkState (alerts st) (showAlert st) (lastAlertHash st)
                     (esp32IpAddress st) b (pollingIntervalRef st) (scheduled st)).

Definition setPollingIntervalRef (r : option Render) : M unit :=
  fun st => (Normal tt,
             mkState (alerts st) (showAlert st) (lastAlertHash st)
                     (esp32IpAddress st) (isPolling st) r (scheduled st)).

(** [setAlerts(updater)]: the updater is given the alerts of the current
    state; what it does besides computing the new list is done as well. *)
Definition setAlerts (updater : list FireAlert -> M (list FireAlert)) : M unit :=
  fun st =>
    match updater (alerts st) st with
    | (Normal l, st') =>
        (Normal tt,
         mkState l (showAlert st') (lastAlertHash st') (esp32IpAddress st')
                 (isPolling st') (pollingIntervalRef st') (scheduled st'))
    | (Throw e, st') => (Throw e, st')
    end.

(** [Notifications.scheduleNotificationAsync({content, trigger: null})] *)
Definition scheduleNotificationAsync (content : NotificationContentInput) : M unit :=
  fun st => (Normal tt,
             mkState (alerts st) (showAlert st) (lastAlertHash st)
                     (esp32IpAddress st) (isPolling st) (pollingIntervalRef st)
                     (content :: scheduled st)).

(** *** [parseESP32Timestamp] *)

(** The element of an array of numbers that a destructuring binds, as a
    number: a missing element is [undefined], which counts as [NaN]. *)
Definition element (i : nat) (l : list Num) : Num :=
  match l !! i with
  | Some n => n
  | None => NaN
  end.

(** [parseESP32Timestamp(timestamp)]; [now] is the instant [new Date()]
    gives.  Calling [split] on a part that is [undefined] throws, and
    the [catch] then answers the current time. *)
Definition parseESP32Timestamp (env : Env) (now : Z) (timestamp : string) : Date :=
  let attempt : Completion Date :=
    let parts := split " " timestamp in
    match parts !! 0%nat with
    | None => Throw TypeError
    | Some datePart =>
        let dateNumbers := map Number (split "-" datePart) in
        let year := element 0 dateNumbers in
        let month := element 1 dateNumbers in
        let day := element 2 dateNumbers in
        match parts !! 1%nat with
        | None => Throw TypeError
        | Some timePart =>
            let timeNumbers := map Number (split ":" timePart) in
            let hours := element 0 timeNumbers in
            let minutes := element 1 timeNumbers in
            Normal (newDate (localTZA env) year (sub month (Int 1)) day hours minutes)
        end
    end in
  match attempt with
  | Normal d => d
  | Throw _ => TimeValue now
  end.

(** *** [triggerFireAlertNotification] *)

(** The flame sign that ends a title, with the bytes it has in the source
    file. *)
Definition flame : string :=
  string_of_list_ascii
    (map ascii_of_nat [195; 176; 197; 184; 226; 128; 157; 194; 165]%nat).

(** An entry of [severityConfig]. *)
Record Profile : Type := mkProfile {
  title : string;
  body : string;
  sound : bool;
  priority : AndroidNotificationPriority
}.

(** The object [severityConfig], by its own properties. *)
Definition severityConfig (alert : FireAlert) : gmap string Profile :=
  {[ "low" :=
       mkProfile ("Fire Alert - LOW " +:+ flame)
                 ("Weak flame detected at " +:+ alert_location alert)
                 true PriorityDEFAULT;
     "moderate" :=
       mkProfile ("Fire Alert - MODERATE " +:+ flame)
                 ("Moderate flame detected at " +:+ alert_location alert)
                 true PriorityHIGH;
     "high" :=
       mkProfile ("Fire Alert - HIGH " +:+ flame)
                 ("Strong flame detected at " +:+ alert_location alert)
                 true PriorityHIGH;
     "extreme" :=
       mkProfile ("EMERGENCY - EXTREME FIRE ALERT " +:+ flame)
                 ("CRITICAL: Extreme flame detected at " +:+ alert_location alert)
                 true PriorityMAX ]}.

(** The property names every object inherits from [Object.prototype]. *)
Definition objectPrototypeKeys : list string :=
  [ "constructor"; "__defineGetter__"; "__defineSetter__"; "hasOwnProperty";
    "__lookupGetter__"; "__lookupSetter__"; "isPrototypeOf";
    "propertyIsEnumerable"; "toString"; "valueOf"; "__proto__";
    "toLocaleString" ].

(** What [object[key]] evaluates to: an own entry, a member inherited from
    [Object.prototype] (a function or the prototype object, which has no
    [title], [body] or [sound]), or [undefined]. *)
Inductive Member : Type :=
| Own (p : Profile)
| Inherited
| Undefined.

Definition getMember (object : gmap string Profile) (key : string) : Member :=
  match object !! key with
  | Some p => Own p
  | None => if bool_decide (key ∈ objectPrototypeKeys) then Inherited else Undefined
  end.

(** [a || b]: [undefined] is falsy, objects and functions are truthy. *)
Definition orElse (a b : Member) : Member :=
  match a with
  | Undefined => b
  | _ => a
  end.

Definition memberField {A : Type} (field : Profile -> A) (m : Member) : option A :=
  match m with
  | Own p => Some (field p)
  | _ => None
  end.

(** The profile the dispatcher selects for an alert. *)
Definition selectedConfig (alert : FireAlert) : Member :=
  orElse (getMember (severityConfig alert) (alert_severity alert))
         (getMember (severityConfig alert) "low").

(** The [content] that [triggerFireAlertNotification] builds from the
    selected profile: [title], [body], [sound] and [data]. *)
Definition notificationContent (alert : FireAlert) : NotificationContentInput :=
  let config := selectedConfig alert in
  {| content_title := memberField title config;
     content_body := memberField body config;
     content_sound := memberField sound config;
     content_priority := None;
     content_data :=
       mkNotificationData (alert_id alert) (alert_severity alert)
                          (alert_coordinates alert) |}.

(** [triggerFireAlertNotification(alert)]: the function is asynchronous
    and nothing awaits it, so nothing it does can throw into its caller. *)
Definition triggerFireAlertNotification (alert : FireAlert) : M unit :=
  scheduleNotificationAsync (notificationContent alert).

(** *** [pollESP32Endpoint] *)

(** The hash of a response:
    [`${data.severity}-${data.latitude}-${data.longitude}-${data.time}`]. *)
Definition alertHash (data : ESP32FireAlert) : string :=
  data_severity data +:+ "-" +:+ numberToString (data_latitude data) +:+ "-"
  +:+ numberToString (data_longitude data) +:+ "-" +:+ data_time data.

(** [await fetch(url, ...)] and [await response.json()]. *)
Definition fetch (net : FetchOutcome) : M (Z * Body) :=
  match net with
  | FetchRejected => throw FetchError
  | FetchResponse status body => ret (status, body)
  end.

Definition json (response : Z * Body) : M ESP32FireAlert :=
  match snd response with
  | BodyJson data => ret data
  | BodyMalformed => throw SyntaxError
  end.

(** The test of the updater of [setAlerts]: an active alert within
    0.0001 degree (100 micro-degrees) of [newAlert] on both axes. *)
Definition sameSpot (newAlert alert : FireAlert) : bool :=
  (Z.abs (lat (alert_coordinates alert) - lat (alert_coordinates newAlert)) <? 100)
  && (Z.abs (lng (alert_coordinates alert) - lng (alert_coordinates newAlert)) <? 100)
  && match alert_status alert with active => true | resolved => false end.

(** The object [newAlert] that [pollESP32Endpoint] builds from a response;
    [now] is the instant of [Date.now()] and, should the time not parse,
    of [new Date()]. *)
Definition newAlertOf (env : Env) (now : Z) (data : ESP32FireAlert) : FireAlert :=
  let alertTime := parseESP32Timestamp env now (data_time data) in
  {| alert_id := now;
     alert_severity := toLowerCase (data_severity data);
     alert_location :=
       "GPS: " +:+ fixedDecimals 4 (data_latitude data) +:+ ", "
       +:+ fixedDecimals 4 (data_longitude data);
     alert_coordinates :=
       mkCoordinates (data_latitude data) (data_longitude data);
     alert_time := alertTime;
     alert_status := active |}.

(** [pollESP32Endpoint()], as created in render [r]; [net] is what the
    fetch of this tick comes back with and [now] the instant the clock
    shows while the response is processed. *)
Definition pollESP32Endpoint (env : Env) (r : Render) (net : FetchOutcome)
    (now : Z) : M unit :=
  if negb (truthy (seen_esp32IpAddress r)) || String.eqb (platformOS env) "web"
  then ret tt
  else
    tryCatch
      (response <- fetch net ;;
       (if negb (response_ok (fst response))
        then throw (HttpError (fst response)) else ret tt) ;;;
       data <- json response ;;
       if truthy (data_severity data) && negb (String.eqb (data_severity data) "NONE")
       then
         let alertHash := alertHash data in
         if negb (String.eqb alertHash (seen_lastAlertHash r)) then
           setLastAlertHash alertHash ;;;
           let newAlert := newAlertOf env now data in
           setAlerts (fun prevAlerts =>
             let exists_ := existsb (sameSpot newAlert) prevAlerts in
             if negb exists_ then
               triggerFireAlertNotification newAlert ;;;
               setShowAlert (Some newAlert) ;;;
               ret (newAlert :: prevAlerts)
             else ret prevAlerts)
         else ret tt
       else ret tt)
      (fun error => ret tt).

(** *** The test generator and the history *)

Record TestLocation : Type := mkLocation {
  location_lat : Z;
  location_lng : Z;
  location_name : string
}.

Definition testLocations : list TestLocation :=
  [ mkLocation 16654200 120345600 "Bacolod City";
    mkLocation 16885000 120272600 "Negros Occidental";
    mkLocation 16424700 120598800 "Antique Province";
    mkLocation 16997400 120682100 "Aklan Province";
    mkLocation 16595200 120194900 "Silay City";
    mkLocation 16747100 120409700 "Cadiz City";
    mkLocation 16545300 120623600 "Iloilo City" ].

Definition severities : list string := ["low"; "moderate"; "high"; "extreme"].

(** What one call of [generateTestFireAlert] draws: the two indices
    [Math.floor(Math.random() * length)] and the two offsets
    [(Math.random() - 0.5) * 0.02], in micro-degrees. *)
Record Draws : Type := mkDraws {
  draw_location : nat;
  draw_severity : nat;
  draw_latOffset : Z;
  draw_lngOffset : Z
}.

(** [generateTestFireAlert()]; [now] is the instant of [Date.now()] and
    [new Date()].  The indices drawn lie within the arrays; an index
    outside of them is given the [TypeError] of reading [location.name]. *)
Definition generateTestFireAlert (draws : Draws) (now : Z) : M unit :=
  match testLocations !! draw_location draws, severities !! draw_severity draws with
  | Some location, Some severity =>
      let newAlert :=
        {| alert_id := now;
           alert_severity := severity;
           alert_location := location_name location +:+ " (SIM)";
           alert_coordinates :=
             mkCoordinates (location_lat location + draw_latOffset draws)
                           (location_lng location + draw_lngOffset draws);
           alert_time := TimeValue now;
           alert_status := active |} in
      setAlerts (fun prevAlerts => ret (newAlert :: prevAlerts)) ;;;
      setShowAlert (Some newAlert) ;;;
      triggerFireAlertNotification newAlert
  | _, _ => throw TypeError
  end.

(** The [Clear All] action of the settings. *)
Definition clearAlertHistory : M unit :=
  setAlerts (fun _ => ret []) ;;;
  setShowAlert None.

(** *** The poller *)

(** The render of the current state. *)
Definition currentRender (st : State) : Render :=
  mkRender (esp32IpAddress st) (lastAlertHash st).

(** [stopPolling()] *)
Definition stopPolling : M unit :=
  setPollingIntervalRef None ;;;
  setIsPolling false.

(** [startPolling()] of render [r]: the interval is given the
    [pollESP32Endpoint] of that render.  [net] and [now] belong to the
    poll that is started at once; its response is processed after the
    interval has been set. *)
Definition startPolling (env : Env) (r : Render) (net : FetchOutcome)
    (now : Z) : M unit :=
  setPollingIntervalRef None ;;;
  setIsPolling true ;;;
  setPollingIntervalRef (Some r) ;;;
  pollESP32Endpoint env r net now.

(** One firing of the interval: the registered function runs; without an
    interval nothing does. *)
Definition intervalTick (env : Env) (tick : FetchOutcome * Z) : M unit :=
  fun st =>
    match pollingIntervalRef st with
    | Some r => pollESP32Endpoint env r (fst tick) (snd tick) st
    | None => (Normal tt, st)
    end.

(** The firings of the interval, one after the other. *)
Fixpoint runTicks (env : Env) (ticks : list (FetchOutcome * Z)) : M unit :=
  match ticks with
  | [] => ret tt
  | tick :: rest => intervalTick env tick ;;; runTicks env rest
  end.

(** *** Runs of the component *)

(** What can happen to the component: a poll created in render [r] gets
    its response, the test button is pressed, the history is cleared. *)
Inductive Action : Type :=
| Poll (r : Render) (net : FetchOutcome) (now : Z)
| GenerateTest (draws : Draws) (now : Z)
| ClearHistory.

Definition perform (env : Env) (a : Action) : M unit :=
  match a with
  | Poll r net now => pollESP32Endpoint env r net now
  | GenerateTest draws now => generateTestFireAlert draws now
  | ClearHistory => clearAlertHistory
  end.

(** A run: the actions one after the other, each to its end; an exception
    of an action ends that action only. *)
Fixpoint run (env : Env) (actions : list Action) (st : State) : State :=
  match actions with
  | [] => st
  | a :: rest => run env rest (exec (perform env a) st)
  end.

(** The clock readings of the actions of a run all lie after [t] and
    strictly increase. *)
Fixpoint clockAdvances (t : Z) (actions : list Action) : Prop :=
  match actions with
  | [] => True
  | Poll _ _ now :: rest => t < now /\ clockAdvances now rest
  | GenerateTest _ now :: rest => t < now /\ clockAdvances now rest
  | ClearHistory :: rest => clockAdvances t rest
  end.

(** *** Vocabulary of the statements *)

(** The answer of the firmware: status 200 and a body that parses to
    [data]. *)
Definition delivered (data : ESP32FireAlert) : FetchOutcome :=
  FetchResponse 200 (BodyJson data).

(** A fetch that fails: it is rejected, or the status of the response is
    not in 200-299, or the body does not parse. *)
Definition failedFetch (net : FetchOutcome) : bool :=
  match net with
  | FetchRejected => true
  | FetchResponse status body =>
      negb (response_ok status)
      || match body with BodyMalformed => true | BodyJson _ => false end
  end.


(** The state with another fingerprint. *)
Definition withFingerprint (h : string) (st : State) : State :=
  mkState (alerts st) (showAlert st) h (esp32IpAddress st) (isPolling st)
          (pollingIntervalRef st) (scheduled st).

(** The state once alert [a] is inserted, shown and notified. *)
Definition withNewAlert (a : FireAlert) (st : State) : State :=
  mkState (a :: alerts st) (Some a) (lastAlertHash st) (esp32IpAddress st)
          (isPolling st) (pollingIntervalRef st)
          (notificationContent a :: scheduled st).

(** The identifiers of the alerts of a state. *)
Definition alertIds (st : State) : list Z := map alert_id (alerts st).

End App.

(** ** The time text, from the firmware to the client *)

Module Wire.

Import JS.




End Wire.

(** ** Sample inputs *)

Module Scenario.

Import JS App.

(** An Android phone at UTC+8. *)
Definition phone : Env := mkEnv "android" 28800000.

(** The component after its first render. *)
Definition initial : State :=
  mkState [] None EmptyString "192.168.1.100" false None [].

(** 2026-01-22 21:35:00.123 at UTC+8, and one and two seconds later. *)
Definition tick1 : Z := 1769088900123.
Definition tick2 : Z := 1769088901123.
Definition tick3 : Z := 1769088902123.

Definition high : ESP32FireAlert :=
  mkData "HIGH" "2026-01-22 21:35" 16615000 120316000.



Definition none : ESP32FireAlert :=
  mkData "NONE" "2026-01-22 21:36" 16615000 120316000.

Definition highBadTime : ESP32FireAlert :=
  mkData "HIGH" "2026-99-99 99:99" 16615000 120316000.

Definition extremeAlert : FireAlert :=
  mkAlert tick1 "extreme" "GPS: 16.6150, 120.3160"
          (mkCoordinates 16615000 120316000) (TimeValue tick1) active.

Definition constructorAlert : FireAlert :=
  mkAlert tick1 "constructor" "GPS: 16.6150, 120.3160"
          (mkCoordinates 16615000 120316000) (TimeValue tick1) active.

Definition unknownAlert : FireAlert :=
  mkAlert tick1 "severe" "GPS: 16.6150, 120.3160"
          (mkCoordinates 16615000 120316000) (TimeValue tick1) active.

Definition someDraws : Draws := mkDraws 0 2 1500 (-2500).

(** The component while the poller runs, the interval holding the
    function of the first render. *)
Definition monitoring : State :=
  mkState [] None EmptyString "192.168.1.100" true
          (Some (currentRender initial)) [].


Definition fix_fresh : Firmware.GpsLocation := Firmware.mkGps true 1999 16615123 120316456.
Definition fix_stale : Firmware.GpsLocation := Firmware.mkGps true 2000 16615123 120316456.

End Scenario.

(** ** More of the client: what the pages show *)

Module Views.

Import JS App.

(** [a.status === 'active'] *)
Definition isActive (a : FireAlert) : bool :=
  match alert_status a with
  | active => true
  | resolved => false
  end.

(** [alerts.filter(a => a.status === 'active')], the list of the home
    page; its length is the counter of active alerts. *)
Definition activeAlerts (st : State) : list FireAlert :=
  List.filter isActive (alerts st).

(** [formatTime(date)]: [now] is the time value of [new Date()], and
    [toLocaleDateString] the text the platform gives for a date.  With an
    invalid date the difference is [NaN] and no comparison holds. *)
Definition formatTime (toLocaleDateString : Date -> string) (now : Z)
    (date : Date) : string :=
  match date with
  | InvalidDate => toLocaleDateString date
  | TimeValue t =>
      let diff := (now - t) / 60000 in
      if diff <? 1 then "Just now"
      else if diff <? 60 then decimal diff +:+ "m ago"
      else if diff <? 1440 then decimal (diff / 60) +:+ "h ago"
      else toLocaleDateString date
  end.

(** What [colors[severity] || fallback] evaluates to: a text, or a member
    inherited from [Object.prototype], which is not a text. *)
Inductive Shown : Type :=
| Text (s : string)
| InheritedMember.

Definition lookupOr (colors : gmap string string) (fallback : string)
    (severity : string) : Shown :=
  match colors !! severity with
  | Some c => Text c
  | None =>
      if bool_decide (severity ∈ objectPrototypeKeys) then InheritedMember
      else Text fallback
  end.

(** [getSeverityColor(severity)] *)
Definition getSeverityColor (severity : string) : Shown :=
  let colors : gmap string string :=
    {[ "low" := "bg-yellow-500";
       "moderate" := "bg-orange-500";
       "high" := "bg-red-500";
       "extreme" := "bg-purple-600" ]} in
  lookupOr colors "bg-gray-500" severity.

(** [getSeverityMarkerColor(severity)] *)
Definition getSeverityMarkerColor (severity : string) : Shown :=
  let colors : gmap string string :=
    {[ "low" := "#eab308";
       "moderate" := "#f97316";
       "high" := "#ef4444";
       "extreme" := "#9333ea" ]} in
  lookupOr colors "#6b7280" severity.

(** [getSeverityBg(severity)] *)
Definition getSeverityBg (severity : string) : Shown :=
  let colors : gmap string string :=
    {[ "low" := "bg-yellow-50 border-yellow-200";
       "moderate" := "bg-orange-50 border-orange-200";
       "high" := "bg-red-50 border-red-200";
       "extreme" := "bg-purple-50 border-purple-200" ]} in
  lookupOr colors "bg-gray-50 border-gray-200" severity.

(** A map region.  Its four numbers are kept in halves of a micro-degree,
    so that the halving of a sum and the factor 1.5 are exact: [2 * x]
    stands for [x] micro-degrees. *)
Record Region : Type := mkRegion {
  latitude : Z;
  longitude : Z;
  latitudeDelta : Z;
  longitudeDelta : Z
}.

(** [Math.min(...(x :: rest))] and [Math.max(...(x :: rest))]. *)
Definition minimum (x : Z) (rest : list Z) : Z := fold_left Z.min rest x.
Definition maximum (x : Z) (rest : list Z) : Z := fold_left Z.max rest x.

(** [x || 0.1] for a span [x]: zero is falsy. *)
Definition orTenth (span : Z) : Z := if span =? 0 then 200000 else span.

(** [getMapRegion(focusAlert)], in a render whose alerts are [alerts]. *)
Definition getMapRegion (alerts : list FireAlert) (focusAlert : option FireAlert)
    : Region :=
  match focusAlert with
  | Some focus =>
      mkRegion (2 * lat (alert_coordinates focus))
               (2 * lng (alert_coordinates focus)) 20000 20000
  | None =>
      match alerts with
      | [] => mkRegion (2 * 16654200) (2 * 120345600) 200000 200000
      | first :: others =>
          let lats := map (fun a => lat (alert_coordinates a)) others in
          let lngs := map (fun a => lng (alert_coordinates a)) others in
          let minLat := minimum (lat (alert_coordinates first)) lats in
          let maxLat := maximum (lat (alert_coordinates first)) lats in
          let minLng := minimum (lng (alert_coordinates first)) lngs in
          let maxLng := maximum (lng (alert_coordinates first)) lngs in
          let latDelta := orTenth (3 * (maxLat - minLat)) in
          let lngDelta := orTenth (3 * (maxLng - minLng)) in
          mkRegion (minLat + maxLat) (minLng + maxLng)
                   (Z.max latDelta 100000) (Z.max lngDelta 100000)
      end
  end.

End Views.

(** ** More of the client: the effect on the address *)

Module Effects.

Import JS App.

(** [setEsp32IpAddress(ip)] *)
Definition setEsp32IpAddress (ip : string) : M unit :=
  fun st => (Normal tt,
             mkState (alerts st) (showAlert st) (lastAlertHash st) ip
                     (isPolling st) (pollingIntervalRef st) (scheduled st)).

(** The body of the effect that depends on [esp32IpAddress], run in the
    render of the current state; [net] and [now] belong to the poll that
    [startPolling] starts at once. *)
Definition addressEffect (env : Env) (net : FetchOutcome) (now : Z) : M unit :=
  fun st =>
    if truthy (esp32IpAddress st) && negb (String.eqb (platformOS env) "web")
    then startPolling env (currentRender st) net now st
    else (Normal tt, st).

(** The address is set to [ip]: when it differs from the address of the
    state, the clean-up of the effect runs ([stopPolling]) and then the
    effect, in the render that has the new address; when it does not,
    no effect runs. *)
Definition changeAddress (env : Env) (ip : string) (net : FetchOutcome)
    (now : Z) : M unit :=
  fun st =>
    if String.eqb ip (esp32IpAddress st) then (Normal tt, st)
    else (setEsp32IpAddress ip ;;; stopPolling ;;; addressEffect env net now) st.

End Effects.

(** ** The snapshot the firmware reports *)

Module Link.

Import App.

(** The object that the body of [handleFireAlert] spells: the level, the
    time text, and the coordinates of the fix or the configured ones, in
    micro-degrees. *)
Definition snapshotOf (sensorValue : Z) (gps : Firmware.GpsLocation)
    (currentMillis : Z) : ESP32FireAlert :=
  mkData (Firmware.severityString (Firmware.classifySeverity sensorValue))
         (Firmware.getTimestamp currentMillis)
         (if Firmware.isGPSValid gps then Firmware.loc_lat gps else 16615000)
         (if Firmware.isGPSValid gps then Firmware.loc_lng gps else 120316000).

End Link.

(** ** Vocabulary of further statements *)

Module Words.

Import JS App.

(** Two alerts at least 0.0001 degree apart on one axis. *)
Definition apart (a b : FireAlert) : Prop :=
  100 <= Z.abs (lat (alert_coordinates a) - lat (alert_coordinates b))
  \/ 100 <= Z.abs (lng (alert_coordinates a) - lng (alert_coordinates b)).

(** The alerts of a list are pairwise apart. *)
Fixpoint separated (l : list FireAlert) : Prop :=
  match l with
  | [] => True
  | a :: rest => Forall (apart a) rest /\ separated rest
  end.

(** Along the list the identifiers strictly decrease. *)
Fixpoint newestFirst (l : list FireAlert) : Prop :=
  match l with
  | [] => True
  | a :: rest => Forall (fun b => alert_id b < alert_id a) rest /\ newestFirst rest
  end.

(** An action of the poller or of the history, not of the test button. *)
Definition pollOrClear (a : Action) : Prop :=
  match a with
  | GenerateTest _ _ => False
  | _ => True
  end.

(** An action that is not the clearing of the history. *)
Definition keepsHistory (a : Action) : Prop :=
  match a with
  | ClearHistory => False
  | _ => True
  end.

(** A tick whose response, if it has one that parses, lies less than
    0.0001 degree from [d] on both axes. *)
Definition staysAt (d : ESP32FireAlert) (a : Action) : Prop :=
  match a with
  | Poll _ (FetchResponse _ (BodyJson d')) _ =>
      Z.abs (data_latitude d' - data_latitude d) < 100
      /\ Z.abs (data_longitude d' - data_longitude d) < 100
  | Poll _ _ _ => True
  | _ => False
  end.

(** The text has a space. *)
Fixpoint hasSpace (s : string) : bool :=
  match s with
  | EmptyString => false
  | String c rest => Ascii.eqb c " " || hasSpace rest
  end.

(** The text has a hyphen. *)
Fixpoint hasHyphen (s : string) : bool :=
  match s with
  | EmptyString => false
  | String c rest => Ascii.eqb c "-" || hasHyphen rest
  end.

End Words.

(** ** Further sample inputs *)

Module Samples.

Import JS App.

(** The poller running, once the response [Scenario.high] is processed. *)
Definition watching : State :=
  exec (intervalTick Scenario.phone (delivered Scenario.high, Scenario.tick1))
       Scenario.monitoring.

(** The same fire a minute later, 0.00002 degree away. *)
Definition highLater : ESP32FireAlert :=
  mkData "HIGH" "2026-01-22 21:36" 16615020 120316000.

(** A fire elsewhere. *)
Definition lowElsewhere : ESP32FireAlert :=
  mkData "LOW" "2026-01-22 21:37" 16700000 120400000.

Definition tick4 : Z := 1769088960123.
Definition tick5 : Z := 1769089020123.

(** A minute of ticks on a fire that does not move, with a failure and a
    response without fire in between. *)
Definition steadyTicks : list Action :=
  [ Poll (currentRender Scenario.initial) (delivered Scenario.high) Scenario.tick2;
    Poll (currentRender Scenario.initial) FetchRejected Scenario.tick3;
    Poll (currentRender Scenario.initial) (delivered Scenario.none) Scenario.tick3;
    Poll (currentRender Scenario.initial) (delivered highLater) tick4 ].

(** Two fires, the test button, and the first fire again. *)
Definition busyRun : list Action :=
  [ Poll (currentRender Scenario.initial) (delivered Scenario.high) Scenario.tick1;
    GenerateTest Scenario.someDraws Scenario.tick2;
    Poll (currentRender Scenario.initial) (delivered lowElsewhere) tick4;
    Poll (currentRender Scenario.initial) (delivered highLater) tick5 ].

(** The same without the test button, and with the history cleared. *)
Definition pollRun : list Action :=
  [ Poll (currentRender Scenario.initial) (delivered Scenario.high) Scenario.tick1;
    ClearHistory;
    Poll (currentRender Scenario.initial) (delivered lowElsewhere) tick4;
    Poll (currentRender Scenario.initial) (delivered highLater) tick5 ].

End Samples.

(** ** Vocabulary on digits *)

Module Digits.

Import JS.

(** The character occurs in the text. *)
Fixpoint occurs (c : ascii) (s : string) : bool :=
  match s with
  | EmptyString => false
  | String c' rest => Ascii.eqb c' c || occurs c rest
  end.

(** The text is made of decimal digits. *)
Fixpoint allDigits (s : string) : bool :=
  match s with
  | EmptyString => true
  | String c rest =>
      match digitValue c with
      | Some _ => allDigits rest
      | None => false
      end
  end.

(** The decimals of a coordinate as its text shows them. *)
Definition fracText (f : Z) : string :=
  stripTrailingZeros (padLeft 6 (decimal f)).

(** The text of a coordinate without its sign: [n] is the absolute value,
    in micro-degrees. *)
Definition unsignedText (n : Z) : string :=
  decimal (n / 1000000) +:+
  match fracText (n mod 1000000) with
  | EmptyString => EmptyString
  | String c rest => "." +:+ String c rest
  end.

End Digits.

(** ** Properties of the text helpers *)

Lemma append_assoc (a b c : string) : (a +:+ b) +:+ c = a +:+ (b +:+ c).
Proof.
  induction a as [| ch a IH].
  - reflexivity.
  - change (String ch ((a +:+ b) +:+ c) = String ch (a +:+ (b +:+ c))).
    f_equal. exact IH.
Qed.

Lemma append_nonempty (a b : string) :
  a <> EmptyString -> a +:+ b <> EmptyString.
Proof. destruct a; [congruence | discriminate]. Qed.

(** ** Properties of the firmware *)

Module FirmwareFacts.

Import Firmware.

(** Each comparison of the classifier, read as a proposition. *)
Ltac split_thresholds :=
  unfold classifySeverity, EXTREME_THRESHOLD, HIGH_THRESHOLD,
    MODERATE_THRESHOLD, LOW_THRESHOLD;
  repeat match goal with
         | |- context [ ?a <? ?b ] => destruct (Z.ltb_spec a b)
         end.

Lemma classifySeverity_urgency (r : Z) :
  urgency (classifySeverity r) =
    if r <? 500 then 4 else if r <? 1000 then 3
    else if r <? 2000 then 2 else if r <? 3000 then 1 else 0.
Proof. split_thresholds; reflexivity. Qed.

Lemma classifySeverity_antitone (r r' : Z) :
  r <= r' -> urgency (classifySeverity r') <= urgency (classifySeverity r).
Proof.
  intros Hle. rewrite !classifySeverity_urgency.
  repeat match goal with
         | |- context [ ?a <? ?b ] => destruct (Z.ltb_spec a b)
         end; lia.
Qed.

(** C1.  For a reading [r] in [0, 4095] the classifier answers EXTREME
    exactly below 500, HIGH exactly on [500, 1000), MODERATE exactly on
    [1000, 2000), LOW exactly on [2000, 3000) and NONE exactly from 3000
    on, so every reading has exactly one level; the readings next to a
    threshold fall as the table says (499 EXTREME, 500 HIGH, 999 HIGH,
    1000 MODERATE, 1999 MODERATE, 2000 LOW, 2999 LOW, 3000 NONE); and a
    larger reading never has a more urgent level. *)
Theorem classifySeverity_bands (r : Z) (Hr : 0 <= r <= 4095) :
  (classifySeverity r = EXTREME <-> r < 500)
  /\ (classifySeverity r = HIGH <-> 500 <= r < 1000)
  /\ (classifySeverity r = MODERATE <-> 1000 <= r < 2000)
  /\ (classifySeverity r = LOW <-> 2000 <= r < 3000)
  /\ (classifySeverity r = NONE <-> 3000 <= r)
  /\ map classifySeverity [499; 500; 999; 1000; 1999; 2000; 2999; 3000]
     = [EXTREME; HIGH; HIGH; MODERATE; MODERATE; LOW; LOW; NONE]
  /\ (forall r', r <= r' <= 4095 ->
        urgency (classifySeverity r') <= urgency (classifySeverity r)).
Proof.
  repeat match goal with |- _ /\ _ => split end.
  1-5: split_thresholds; split; intros; (discriminate || lia || reflexivity).
  - reflexivity.
  - intros r' [Hle _]. now apply classifySeverity_antitone.
Qed.

Lemma classifySeverity_bands_witness :
  0 <= 2999 <= 4095
  /\ classifySeverity 2999 = LOW
  /\ urgency (classifySeverity 3000) <= urgency (classifySeverity 2999).
Proof.
  split; [lia |].
  destruct (classifySeverity_bands 2999 ltac:(lia))
    as (_ & _ & _ & Hlow & _ & _ & Hmono).
  split.
  - apply Hlow. lia.
  - apply Hmono. lia.
Defined.

(** The text [handleFireAlert] builds is the object of the wire protocol. *)
Lemma handleFireAlert_body (sensorValue : Z) (gps : GpsLocation) (ms : Z) :
  res_body (handleFireAlert sensorValue gps ms) =
    snapshotJson (severityString (classifySeverity sensorValue))
                 (getTimestamp ms)
                 (if isGPSValid gps then fixedDecimals 6 (loc_lat gps) else "16.615")
                 (if isGPSValid gps then fixedDecimals 6 (loc_lng gps) else "120.316").
Proof.
  unfold handleFireAlert, snapshotJson. cbn [res_body].
  destruct (isGPSValid gps); rewrite !append_assoc; reflexivity.
Qed.

(** C5.  The position test answers true exactly when the fix indicator
    is set and the fix is younger than 2000 ms.  The response then
    carries the latitude and the longitude of the fix, with their six
    decimals; otherwise it carries the configured coordinates 16.615 and
    120.316.  Either way the response is a 200 whose body has both
    coordinates. *)
Theorem position_validation (sensorValue : Z) (gps : GpsLocation) (ms : Z) :
  (isGPSValid gps = true <-> loc_isValid gps = true /\ loc_age gps < 2000)
  /\ (isGPSValid gps = false <-> loc_isValid gps = false \/ 2000 <= loc_age gps)
  /\ res_status (handleFireAlert sensorValue gps ms) = 200
  /\ res_body (handleFireAlert sensorValue gps ms) =
       snapshotJson (severityString (classifySeverity sensorValue))
                    (getTimestamp ms)
                    (if isGPSValid gps then fixedDecimals 6 (loc_lat gps) else "16.615")
                    (if isGPSValid gps then fixedDecimals 6 (loc_lng gps) else "120.316").
Proof.
  split; [| split; [| split]].
  - unfold isGPSValid. rewrite andb_true_iff, Z.ltb_lt. reflexivity.
  - unfold isGPSValid. rewrite andb_false_iff, Z.ltb_ge. reflexivity.
  - reflexivity.
  - apply handleFireAlert_body.
Qed.

(** A fix of 1999 ms is sent as it is; a fix of 2000 ms is replaced by the
    configured position. *)
Lemma position_examples :
  res_body (handleFireAlert 700 Scenario.fix_fresh 77700000)
  = snapshotJson "HIGH" "2026-01-22 21:35" "16.615123" "120.316456"
  /\ res_body (handleFireAlert 700 Scenario.fix_stale 77700000)
     = snapshotJson "HIGH" "2026-01-22 21:35" "16.615" "120.316".
Proof. split; vm_compute; reflexivity. Qed.

End FirmwareFacts.

(** ** Properties of the client *)

Module AppFacts.

Import JS App.

(** *** The poll tick, path by path *)

Lemma truthy_true (s : string) : s <> EmptyString -> truthy s = true.
Proof. destruct s; [congruence | reflexivity]. Qed.

Lemma eqb_false (a b : string) : a <> b -> String.eqb a b = false.
Proof. apply String.eqb_neq. Qed.

Lemma withFingerprint_same (st : State) : withFingerprint (lastAlertHash st) st = st.
Proof. destruct st; reflexivity. Qed.

(** The tick never throws. *)
Lemma poll_completes (env : Env) (r : Render) (net : FetchOutcome) (now : Z)
    (st : State) :
  completion (pollESP32Endpoint env r net now) st = Normal tt.
Proof.
  unfold completion, pollESP32Endpoint.
  destruct (negb (truthy (seen_esp32IpAddress r)) || String.eqb (platformOS env) "web");
    [reflexivity |].
  unfold tryCatch, bind, fetch, json, throw, ret, setAlerts, setLastAlertHash.
  destruct net as [| status [data |]]; cbn; try reflexivity.
  all: destruct (response_ok status); cbn; try reflexivity.
  destruct (truthy (data_severity data) && negb (String.eqb (data_severity data) "NONE"));
    [| reflexivity].
  destruct (negb (String.eqb (alertHash data) (seen_lastAlertHash r)));
    [| reflexivity].
  cbn.
  destruct (negb (existsb (sameSpot (newAlertOf env now data)) (alerts st)));
    reflexivity.
Qed.

(** Without an address, or on the web, nothing is fetched. *)
Lemma poll_off (env : Env) (r : Render) (net : FetchOutcome) (now : Z) (st : State) :
  seen_esp32IpAddress r = EmptyString \/ platformOS env = "web" ->
  exec (pollESP32Endpoint env r net now) st = st.
Proof.
  intros H. unfold exec, pollESP32Endpoint.
  destruct H as [H | H]; rewrite H; [reflexivity |].
  rewrite orb_true_r. reflexivity.
Qed.

(** A failed fetch leaves the state as it is. *)
Lemma poll_failed (env : Env) (r : Render) (net : FetchOutcome) (now : Z)
    (st : State) :
  failedFetch net = true ->
  exec (pollESP32Endpoint env r net now) st = st.
Proof.
  intros Hfail. unfold exec, pollESP32Endpoint.
  destruct (negb (truthy (seen_esp32IpAddress r)) || String.eqb (platformOS env) "web");
    [reflexivity |].
  unfold tryCatch, bind, fetch, json, throw, ret.
  destruct net as [| status [data |]]; cbn in *; try reflexivity.
  - rewrite orb_false_r in Hfail. rewrite Hfail. reflexivity.
  - destruct (response_ok status); reflexivity.
Qed.

(** A response without a severity, or with severity NONE, leaves the
    state as it is. *)
Lemma poll_no_fire (env : Env) (r : Render) (status : Z) (data : ESP32FireAlert)
    (now : Z) (st : State) :
  data_severity data = EmptyString \/ data_severity data = "NONE" ->
  exec (pollESP32Endpoint env r (FetchResponse status (BodyJson data)) now) st = st.
Proof.
  intros H. unfold exec, pollESP32Endpoint.
  destruct (negb (truthy (seen_esp32IpAddress r)) || String.eqb (platformOS env) "web");
    [reflexivity |].
  unfold tryCatch, bind, fetch, json, throw, ret.
  cbn. destruct (response_ok status); cbn; [| reflexivity].
  destruct H as [H | H]; rewrite H; reflexivity.
Qed.

(** A response whose hash is the one the function holds leaves the state
    as it is. *)
Lemma poll_same_hash (env : Env) (r : Render) (status : Z) (data : ESP32FireAlert)
    (now : Z) (st : State) :
  alertHash data = seen_lastAlertHash r ->
  exec (pollESP32Endpoint env r (FetchResponse status (BodyJson data)) now) st = st.
Proof.
  intros H. unfold exec, pollESP32Endpoint.
  destruct (negb (truthy (seen_esp32IpAddress r)) || String.eqb (platformOS env) "web");
    [reflexivity |].
  unfold tryCatch, bind, fetch, json, throw, ret.
  cbn. destruct (response_ok status); cbn; [| reflexivity].
  destruct (truthy (data_severity data) && negb (String.eqb (data_severity data) "NONE"));
    [| reflexivity].
  rewrite H, String.eqb_refl. reflexivity.
Qed.

(** A fire response with another hash: the fingerprint is replaced, and
    the alert is inserted, shown and notified unless an active alert lies
    at the same spot. *)
Lemma poll_fire (env : Env) (r : Render) (status : Z) (data : ESP32FireAlert)
    (now : Z) (st : State) :
  platformOS env <> "web" ->
  seen_esp32IpAddress r <> EmptyString ->
  response_ok status = true ->
  data_severity data <> EmptyString ->
  data_severity data <> "NONE" ->
  alertHash data <> seen_lastAlertHash r ->
  exec (pollESP32Endpoint env r (FetchResponse status (BodyJson data)) now) st =
    if existsb (sameSpot (newAlertOf env now data)) (alerts st)
    then withFingerprint (alertHash data) st
    else withNewAlert (newAlertOf env now data) (withFingerprint (alertHash data) st).
Proof.
  intros Hweb Hip Hok Hsev Hnone Hhash. unfold exec, pollESP32Endpoint.
  rewrite (truthy_true _ Hip), (eqb_false _ _ Hweb). cbn [negb orb].
  unfold tryCatch, bind, fetch, json, throw, ret.
  cbn. rewrite Hok. cbn.
  rewrite (truthy_true _ Hsev), (eqb_false _ _ Hnone), (eqb_false _ _ Hhash).
  unfold setAlerts, setLastAlertHash. cbn.
  destruct (existsb (sameSpot (newAlertOf env now data)) (alerts st)); reflexivity.
Qed.

(** *** Hashes and spots *)

Lemma alertHash_nonempty (data : ESP32FireAlert) :
  data_severity data <> EmptyString -> alertHash data <> EmptyString.
Proof. intros H. unfold alertHash. now apply append_nonempty. Qed.

Lemma newAlertOf_coordinates (env : Env) (now : Z) (data : ESP32FireAlert) :
  alert_coordinates (newAlertOf env now data) =
    mkCoordinates (data_latitude data) (data_longitude data).
Proof. reflexivity. Qed.

(** The test of the updater, on the coordinates of a response. *)
Lemma sameSpot_newAlertOf (env : Env) (now : Z) (data : ESP32FireAlert)
    (a : FireAlert) :
  sameSpot (newAlertOf env now data) a = true <->
    Z.abs (lat (alert_coordinates a) - data_latitude data) < 100
    /\ Z.abs (lng (alert_coordinates a) - data_longitude data) < 100
    /\ alert_status a = active.
Proof.
  unfold sameSpot. cbn [alert_coordinates newAlertOf lat lng].
  rewrite !andb_true_iff, !Z.ltb_lt.
  destruct (alert_status a); intuition (congruence || discriminate).
Qed.


(** *** Deduplication *)


(** The scenario of the identical response, evaluated: one active alert
    with severity high at (16.615, 120.316), observed at 21:35 local time,
    and one notification, with the HIGH title. *)
Lemma scenario_high_twice :
  let st1 :=
    exec (pollESP32Endpoint Scenario.phone (currentRender Scenario.initial)
            (delivered Scenario.high) Scenario.tick1) Scenario.initial in
  let st2 :=
    exec (pollESP32Endpoint Scenario.phone (currentRender st1)
            (delivered Scenario.high) Scenario.tick2) st1 in
  alerts st2 =
    [ mkAlert Scenario.tick1 "high" "GPS: 16.6150, 120.3160"
              (mkCoordinates 16615000 120316000) (TimeValue 1769088900000) active ]
  /\ map content_title (scheduled st2) = [Some ("Fire Alert - HIGH " +:+ flame)]
  /\ lastAlertHash st2 = "HIGH-16.615-120.316-2026-01-22 21:35".
Proof. repeat split; vm_compute; reflexivity. Qed.


(** C4.  A response with severity NONE changes nothing, whatever the
    state and whatever else the response says: the alerts, the alert
    shown, the fingerprint and the notifications are those of before. *)
Theorem none_changes_nothing (env : Env) (r : Render) (status : Z)
    (d : ESP32FireAlert) (now : Z) (st : State) :
  data_severity d = "NONE" ->
  exec (pollESP32Endpoint env r (FetchResponse status (BodyJson d)) now) st = st
  /\ completion (pollESP32Endpoint env r (FetchResponse status (BodyJson d)) now) st
     = Normal tt.
Proof.
  intros Hnone. split.
  - apply poll_no_fire. now right.
  - apply poll_completes.
Qed.

Ltac by_evaluation :=
  first [ reflexivity
        | let H := fresh in intro H; vm_compute in H; discriminate H
        | vm_compute; reflexivity
        | vm_compute; lia ].



Lemma none_changes_nothing_witness :
  exec (pollESP32Endpoint Scenario.phone (currentRender Scenario.initial)
          (FetchResponse 200 (BodyJson Scenario.none)) Scenario.tick1)
       Scenario.initial = Scenario.initial
  /\ completion (pollESP32Endpoint Scenario.phone (currentRender Scenario.initial)
          (FetchResponse 200 (BodyJson Scenario.none)) Scenario.tick1)
       Scenario.initial = Normal tt.
Proof.
  apply none_changes_nothing. reflexivity.
Defined.

(** *** Every tick is one of two kinds *)

(** A tick either leaves the state as it is, or it processes a fire
    response whose hash is not the one its function holds. *)
Lemma poll_cases (env : Env) (r : Render) (net : FetchOutcome) (now : Z)
    (st : State) :
  exec (pollESP32Endpoint env r net now) st = st
  \/ exists status d,
       net = FetchResponse status (BodyJson d)
       /\ platformOS env <> "web"
       /\ seen_esp32IpAddress r <> EmptyString
       /\ response_ok status = true
       /\ data_severity d <> EmptyString
       /\ data_severity d <> "NONE"
       /\ alertHash d <> seen_lastAlertHash r.
Proof.
  destruct (String.eqb_spec (platformOS env) "web") as [Hweb | Hweb];
    [left; apply poll_off; now right |].
  destruct (String.eqb_spec (seen_esp32IpAddress r) EmptyString) as [Hip | Hip];
    [left; apply poll_off; now left |].
  destruct (failedFetch net) eqn:Hfail; [left; now apply poll_failed |].
  destruct net as [| status [d |]]; cbn in Hfail;
    [discriminate | | rewrite orb_true_r in Hfail; discriminate].
  rewrite orb_false_r in Hfail. apply negb_false_iff in Hfail.
  destruct (String.eqb_spec (data_severity d) EmptyString) as [Hsev | Hsev];
    [left; apply poll_no_fire; now left |].
  destruct (String.eqb_spec (data_severity d) "NONE") as [Hnone | Hnone];
    [left; apply poll_no_fire; now right |].
  destruct (String.eqb_spec (alertHash d) (seen_lastAlertHash r)) as [Hh | Hh];
    [left; now apply poll_same_hash |].
  right. exists status, d. repeat split; assumption.
Qed.





(** *** Failed fetches *)








(** *** The fingerprint across responses without fire *)




(** *** The time of an alert *)

(** What [parseESP32Timestamp] answers: the current time exactly when the
    text has no space, and otherwise the date its fields make, whatever
    they are. *)
Lemma parseESP32Timestamp_cases (env : Env) (now : Z) (timestamp : string) :
  parseESP32Timestamp env now timestamp =
    match split " " timestamp with
    | datePart :: timePart :: _ =>
        let dateNumbers := map Number (split "-" datePart) in
        let timeNumbers := map Number (split ":" timePart) in
        newDate (localTZA env) (element 0 dateNumbers)
                (sub (element 1 dateNumbers) (Int 1)) (element 2 dateNumbers)
                (element 0 timeNumbers) (element 1 timeNumbers)
    | _ => TimeValue now
    end.
Proof.
  unfold parseESP32Timestamp.
  destruct (split " " timestamp) as [| datePart [| timePart rest]]; reflexivity.
Qed.

(** A text without a space gets the current time. *)
Lemma parseESP32Timestamp_no_space (env : Env) (now : Z) (timestamp : string) :
  length (split " " timestamp) = 1%nat ->
  parseESP32Timestamp env now timestamp = TimeValue now.
Proof.
  intros H. rewrite parseESP32Timestamp_cases.
  destruct (split " " timestamp) as [| datePart [| timePart rest]];
    try reflexivity; discriminate.
Qed.

(** The time the firmware sends is read as that time of day on
    2026-01-22, local time. *)
Lemma parseESP32Timestamp_well_formed :
  parseESP32Timestamp Scenario.phone Scenario.tick1 (data_time Scenario.high)
  = TimeValue 1769088900000.
Proof. reflexivity. Qed.

(** C7, on the code.  The time text 2026-99-99 99:99 does not make the
    parser throw: the month, day, hour and minute carry over, and the
    alert gets 2034-06-11 04:39 local time (here at UTC+8), not the
    instant at which the tick was processed. *)
Theorem out_of_range_time_carries_over :
  parseESP32Timestamp Scenario.phone Scenario.tick1 "2026-99-99 99:99"
  = newDate (localTZA Scenario.phone) (Int 2034) (Int 5) (Int 11) (Int 4) (Int 39)
  /\ alerts (exec (pollESP32Endpoint Scenario.phone (currentRender Scenario.initial)
                     (delivered Scenario.highBadTime) Scenario.tick1)
                  Scenario.initial)
     = [newAlertOf Scenario.phone Scenario.tick1 Scenario.highBadTime]
  /\ alert_time (newAlertOf Scenario.phone Scenario.tick1 Scenario.highBadTime)
     = TimeValue 2033584740000
  /\ alert_time (newAlertOf Scenario.phone Scenario.tick1 Scenario.highBadTime)
     <> TimeValue Scenario.tick1.
Proof.
  split; [vm_compute; reflexivity |].
  split; [vm_compute; reflexivity |].
  split; [vm_compute; reflexivity |].
  vm_compute. discriminate.
Qed.

(** *** The notification of an alert *)

(** One call, one request. *)
Lemma triggerFireAlertNotification_once (alert : FireAlert) (st : State) :
  triggerFireAlertNotification alert st
  = (Normal tt,
     mkState (alerts st) (showAlert st) (lastAlertHash st) (esp32IpAddress st)
             (isPolling st) (pollingIntervalRef st)
             (notificationContent alert :: scheduled st)).
Proof. reflexivity. Qed.

(** Each of the four severities selects its own profile. *)
Lemma selectedConfig_own (alert : FireAlert) :
  (alert_severity alert = "low" ->
     memberField title (selectedConfig alert) = Some ("Fire Alert - LOW " +:+ flame)
     /\ memberField priority (selectedConfig alert) = Some PriorityDEFAULT)
  /\ (alert_severity alert = "moderate" ->
     memberField title (selectedConfig alert) = Some ("Fire Alert - MODERATE " +:+ flame)
     /\ memberField priority (selectedConfig alert) = Some PriorityHIGH)
  /\ (alert_severity alert = "high" ->
     memberField title (selectedConfig alert) = Some ("Fire Alert - HIGH " +:+ flame)
     /\ memberField priority (selectedConfig alert) = Some PriorityHIGH)
  /\ (alert_severity alert = "extreme" ->
     memberField title (selectedConfig alert)
       = Some ("EMERGENCY - EXTREME FIRE ALERT " +:+ flame)
     /\ memberField priority (selectedConfig alert) = Some PriorityMAX).
Proof.
  unfold selectedConfig.
  split; [| split; [| split]]; intros Hs; rewrite Hs; split; reflexivity.
Qed.

(** No priority is above the one of the extreme profile. *)
Lemma PriorityMAX_greatest (p : AndroidNotificationPriority) :
  priorityRank p <= priorityRank PriorityMAX.
Proof. destruct p; cbn; lia. Qed.

(** A severity that is neither one of the four nor the name of a member
    every object inherits selects the profile of [low]. *)
Lemma selectedConfig_fallback (alert : FireAlert) :
  alert_severity alert ∉ ["low"; "moderate"; "high"; "extreme"] ->
  alert_severity alert ∉ objectPrototypeKeys ->
  selectedConfig alert = getMember (severityConfig alert) "low"
  /\ memberField title (selectedConfig alert) = Some ("Fire Alert - LOW " +:+ flame).
Proof.
  intros Hfour Hproto.
  assert (Hnone : severityConfig alert !! alert_severity alert = None).
  { assert (H1 : "low" <> alert_severity alert) by set_solver.
    assert (H2 : "moderate" <> alert_severity alert) by set_solver.
    assert (H3 : "high" <> alert_severity alert) by set_solver.
    assert (H4 : "extreme" <> alert_severity alert) by set_solver.
    unfold severityConfig.
    rewrite !lookup_insert_ne by assumption.
    now apply lookup_singleton_ne. }
  assert (Hsel : selectedConfig alert = getMember (severityConfig alert) "low").
  { unfold selectedConfig, getMember at 1. rewrite Hnone.
    rewrite bool_decide_eq_false_2 by assumption. reflexivity. }
  split; [exact Hsel |]. rewrite Hsel. reflexivity.
Qed.

(** C8, on the code.  The profile of an extreme alert has the greatest
    priority, but the one request issued for the alert carries a title, a
    body, a sound and the data of the alert, and no priority.  A severity
    that names a member every object inherits, such as constructor,
    selects that member and not the profile of low: the request then has
    neither title nor body. *)
Theorem request_carries_no_priority :
  memberField priority (selectedConfig Scenario.extremeAlert) = Some PriorityMAX
  /\ scheduled (exec (triggerFireAlertNotification Scenario.extremeAlert)
                     Scenario.initial)
     = [notificationContent Scenario.extremeAlert]
  /\ content_title (notificationContent Scenario.extremeAlert)
     = Some ("EMERGENCY - EXTREME FIRE ALERT " +:+ flame)
  /\ content_priority (notificationContent Scenario.extremeAlert) = None
  /\ content_title (notificationContent Scenario.constructorAlert) = None
  /\ content_body (notificationContent Scenario.constructorAlert) = None
  /\ content_title (notificationContent Scenario.unknownAlert)
     = Some ("Fire Alert - LOW " +:+ flame).
Proof. repeat split; vm_compute; reflexivity. Qed.

(** *** Starting and stopping the poller *)

(** Starting the poller sets the interval to the function of the render,
    whatever interval there was, and no first response can undo that. *)
Lemma startPolling_registers (env : Env) (r : Render) (net : FetchOutcome)
    (now : Z) (st : State) :
  pollingIntervalRef (exec (startPolling env r net now) st) = Some r
  /\ isPolling (exec (startPolling env r net now) st) = true
  /\ completion (startPolling env r net now) st = Normal tt.
Proof.
  unfold exec, completion, startPolling, bind, setPollingIntervalRef, setIsPolling.
  cbn.
  set (st' := mkState _ _ _ _ _ _ _).
  pose proof (poll_completes env r net now st') as Hc. unfold completion in Hc.
  destruct (poll_cases env r net now st')
    as [Hsame | (status & d & Hnet & Hweb & Hip & Hok & Hsev & Hnone & Hh)].
  - unfold exec in Hsame. rewrite Hsame. repeat split; [reflexivity .. | exact Hc].
  - subst net. pose proof (poll_fire env r status d now st' Hweb Hip Hok Hsev Hnone Hh) as Hf.
    unfold exec in Hf. rewrite Hf.
    destruct (existsb _ _); repeat split; try reflexivity; exact Hc.
Qed.

(** Stopping the poller leaves no interval, and stopping twice is
    stopping once. *)
Lemma stopPolling_idempotent (st : State) :
  pollingIntervalRef (exec stopPolling st) = None
  /\ isPolling (exec stopPolling st) = false
  /\ exec stopPolling (exec stopPolling st) = exec stopPolling st.
Proof. repeat split. Qed.

(** Without an interval, no tick is run. *)
Lemma stopped_poller_is_silent (env : Env) (ticks : list (FetchOutcome * Z))
    (st : State) :
  pollingIntervalRef st = None -> runTicks env ticks st = (Normal tt, st).
Proof.
  intros Hnone. induction ticks as [| tick rest IH]; [reflexivity |].
  cbn [runTicks]. unfold bind, intervalTick. rewrite Hnone. exact IH.
Qed.

(** The sample state [monitoring] is the initial state once the poller
    is started and its first fetch has failed. *)
Lemma monitoring_is_started :
  exec (startPolling Scenario.phone (currentRender Scenario.initial)
          FetchRejected Scenario.tick1) Scenario.initial
  = Scenario.monitoring.
Proof. reflexivity. Qed.

(** *** Identifiers *)

(** What the test generator does to the alerts: it inserts one alert whose
    identifier is the clock reading, or it throws and inserts none. *)
Lemma generateTestFireAlert_alerts (draws : Draws) (now : Z) (st : State) :
  alerts (exec (generateTestFireAlert draws now) st) = alerts st
  \/ exists a, alert_id a = now
             /\ alerts (exec (generateTestFireAlert draws now) st) = a :: alerts st.
Proof.
  unfold exec, generateTestFireAlert.
  destruct (testLocations !! draw_location draws) as [location |];
    [| left; destruct (severities !! draw_severity draws); reflexivity].
  destruct (severities !! draw_severity draws) as [severity |]; [| now left].
  right. eexists. split; [| reflexivity]. reflexivity.
Qed.

(** What a tick does to the alerts: nothing, or it inserts one alert whose
    identifier is the clock reading. *)
Lemma poll_alerts (env : Env) (r : Render) (net : FetchOutcome) (now : Z)
    (st : State) :
  alerts (exec (pollESP32Endpoint env r net now) st) = alerts st
  \/ exists a, alert_id a = now
             /\ alerts (exec (pollESP32Endpoint env r net now) st) = a :: alerts st.
Proof.
  destruct (poll_cases env r net now st)
    as [Hsame | (status & d & Hnet & Hweb & Hip & Hok & Hsev & Hnone & Hh)].
  - left. now rewrite Hsame.
  - subst net. rewrite poll_fire by assumption.
    destruct (existsb _ _); [now left |].
    right. exists (newAlertOf env now d). split; reflexivity.
Qed.

(** As long as every alert is made at a clock reading later than all the
    readings before, the identifiers of the alerts are pairwise distinct. *)
Lemma ids_distinct_when_clock_advances (env : Env) (actions : list Action) :
  forall (t : Z) (st : State),
    Forall (fun a => alert_id a <= t) (alerts st) ->
    NoDup (alertIds st) ->
    clockAdvances t actions ->
    NoDup (alertIds (run env actions st)).
Proof.
  assert (Hstep : forall t now st st',
             t < now ->
             Forall (fun a => alert_id a <= t) (alerts st) ->
             NoDup (alertIds st) ->
             (alerts st' = alerts st
              \/ exists a, alert_id a = now /\ alerts st' = a :: alerts st) ->
             Forall (fun a => alert_id a <= now) (alerts st') /\ NoDup (alertIds st')).
  { intros t now st st' Hlt Hb Hnd [Heq | (a & Hid & Heq)]; unfold alertIds in *;
      rewrite Heq.
    - split; [| exact Hnd]. eapply Forall_impl; [exact Hb |]. cbn. intros; lia.
    - split.
      + constructor; [lia |]. eapply Forall_impl; [exact Hb |]. cbn. intros; lia.
      + cbn [map]. constructor; [| exact Hnd].
        rewrite list_elem_of_In, in_map_iff. intros (b & Hb1 & Hb2).
        apply list_elem_of_In in Hb2.
        rewrite Forall_forall in Hb. specialize (Hb b Hb2). lia. }
  induction actions as [| a rest IH]; intros t st Hb Hnd Hclock; [exact Hnd |].
  cbn [run]. destruct a as [r net now | draws now |]; cbn [clockAdvances perform] in *.
  - destruct Hclock as [Hlt Hrest].
    destruct (Hstep t now st (exec (pollESP32Endpoint env r net now) st) Hlt Hb Hnd
                (poll_alerts env r net now st)) as [Hb' Hnd'].
    now apply (IH now).
  - destruct Hclock as [Hlt Hrest].
    destruct (Hstep t now st (exec (generateTestFireAlert draws now) st) Hlt Hb Hnd
                (generateTestFireAlert_alerts draws now st)) as [Hb' Hnd'].
    now apply (IH now).
  - apply (IH t); [constructor | constructor | exact Hclock].
Qed.

(** C9, on the code.  The identifier of an alert is the clock reading in
    milliseconds.  A response processed and the test button pressed
    within the same millisecond leave two distinct alerts with one
    identifier. *)
Theorem same_millisecond_same_id :
  let st :=
    run Scenario.phone
        [ Poll (currentRender Scenario.initial) (delivered Scenario.high) Scenario.tick1;
          GenerateTest Scenario.someDraws Scenario.tick1 ]
        Scenario.initial in
  exists a b,
    alerts st = [a; b] /\ a <> b /\ alert_id a = alert_id b
    /\ ~ NoDup (alertIds st).
Proof.
  cbv zeta. eexists. eexists.
  split; [vm_compute; reflexivity |].
  split; [discriminate |].
  split; [reflexivity |].
  vm_compute. intros Hnd. apply NoDup_cons_1_1 in Hnd. apply Hnd. left.
Qed.

End AppFacts.

(** ** From the firmware to the client *)

Module WireFacts.

Import JS App Wire.






End WireFacts.

(** ** Further properties of the client: runs *)

Module RunFacts.

Import JS App Views Words.

(** What a tick does to the state: nothing, or it stores the hash of a
    fire response and, unless an active alert lies at the spot, inserts,
    shows and notifies the alert of the response. *)
Lemma poll_step (env : Env) (r : Render) (net : FetchOutcome) (now : Z)
    (st : State) :
  exec (pollESP32Endpoint env r net now) st = st
  \/ exists status d,
       net = FetchResponse status (BodyJson d)
       /\ data_severity d <> EmptyString
       /\ data_severity d <> "NONE"
       /\ alertHash d <> seen_lastAlertHash r
       /\ ((existsb (sameSpot (newAlertOf env now d)) (alerts st) = true
            /\ exec (pollESP32Endpoint env r net now) st
               = withFingerprint (alertHash d) st)
           \/ (existsb (sameSpot (newAlertOf env now d)) (alerts st) = false
               /\ exec (pollESP32Endpoint env r net now) st
                  = withNewAlert (newAlertOf env now d)
                      (withFingerprint (alertHash d) st))).
Proof.
  destruct (AppFacts.poll_cases env r net now st)
    as [Hsame | (status & d & Hnet & Hweb & Hip & Hok & Hsev & Hnone & Hh)];
    [now left |].
  right. exists status, d. subst net.
  rewrite AppFacts.poll_fire by assumption.
  repeat split; try assumption.
  destruct (existsb _ _); [left | right]; split; reflexivity.
Qed.

(** What the test button does to the state: it inserts, shows and
    notifies an active alert with one of the four severities, or (index
    outside the arrays) it does nothing. *)
Lemma generate_step (draws : Draws) (now : Z) (st : State) :
  exec (generateTestFireAlert draws now) st = st
  \/ exists a,
       alert_id a = now /\ alert_status a = active
       /\ In (alert_severity a) severities
       /\ exec (generateTestFireAlert draws now) st = withNewAlert a st.
Proof.
  unfold exec, generateTestFireAlert.
  destruct (testLocations !! draw_location draws) as [location |] eqn:Hl;
    [| left; destruct (severities !! draw_severity draws); reflexivity].
  destruct (severities !! draw_severity draws) as [severity |] eqn:Hs;
    [| now left].
  right.
  exists (mkAlert now severity (location_name location +:+ " (SIM)")
            (mkCoordinates (location_lat location + draw_latOffset draws)
                           (location_lng location + draw_lngOffset draws))
            (TimeValue now) active).
  split; [reflexivity | split; [reflexivity | split; [| reflexivity]]].
  cbn [alert_severity].
  apply list_elem_of_In. eapply list_elem_of_lookup_2. exact Hs.
Qed.

Lemma sameSpot_false_apart (x a : FireAlert) :
  alert_status a = active -> sameSpot x a = false -> apart x a.
Proof.
  unfold sameSpot, apart. intros Hact. rewrite Hact, andb_true_r.
  rewrite andb_false_iff, !Z.ltb_ge. lia.
Qed.

Lemma existsb_false_apart (x : FireAlert) (l : list FireAlert) :
  Forall (fun a => alert_status a = active) l ->
  existsb (sameSpot x) l = false -> Forall (apart x) l.
Proof.
  induction 1 as [| a l Ha _ IH]; cbn [existsb]; intros He; [constructor |].
  apply orb_false_iff in He. destruct He as [Hs Hrest].
  constructor; [now apply sameSpot_false_apart | now apply IH].
Qed.

(** X1.  One fire that stays where it is makes one alert.  Once a fire
    response has made the first alert of a store, any number of further
    ticks, failed, without fire or with fire of any severity and time
    less than 0.0001 degree from the first response on both axes, and
    whatever fingerprint each compares with, leave that one alert and its
    one notification. *)
Theorem stationary_fire_one_alert (env : Env) (r1 : Render) (now1 : Z)
    (d1 : ESP32FireAlert) (later : list Action) (st : State) :
  platformOS env <> "web" ->
  seen_esp32IpAddress r1 <> EmptyString ->
  data_severity d1 <> EmptyString ->
  data_severity d1 <> "NONE" ->
  alertHash d1 <> seen_lastAlertHash r1 ->
  alerts st = [] ->
  Forall (staysAt d1) later ->
  let st1 := exec (pollESP32Endpoint env r1 (delivered d1) now1) st in
  alerts (run env later st1) = [newAlertOf env now1 d1]
  /\ scheduled (run env later st1)
     = notificationContent (newAlertOf env now1 d1) :: scheduled st.
Proof.
  intros Hweb Hip Hsev Hnone Hh Hempty Hlater st1.
  assert (Hst1 : alerts st1 = [newAlertOf env now1 d1]
                 /\ scheduled st1
                    = notificationContent (newAlertOf env now1 d1) :: scheduled st).
  { subst st1. unfold delivered.
    rewrite AppFacts.poll_fire by (assumption || reflexivity).
    rewrite Hempty. cbn. now rewrite Hempty. }
  clearbody st1. destruct Hst1 as [Hal Hsch]. rewrite <- Hsch. clear Hsch.
  revert st1 Hal. induction Hlater as [| a rest Ha _ IH]; intros s Hal;
    [now split |].
  cbn [run].
  destruct a as [r net now | |]; cbn [staysAt] in Ha; try contradiction.
  cbn [perform].
  destruct (poll_step env r net now s)
    as [Hsame | (status & d & Hnet & _ & _ & _ & [[He Hex] | [He Hex]])].
  - rewrite Hsame. now apply IH.
  - rewrite Hex.
    destruct (IH (withFingerprint (alertHash d) s) Hal) as [H1 H2].
    split; [exact H1 | exact H2].
  - exfalso. subst net. destruct Ha as [Hlat Hlng].
    rewrite Hal in He. cbn [existsb] in He. rewrite orb_false_r in He.
    apply not_true_iff_false in He. apply He.
    apply AppFacts.sameSpot_newAlertOf. cbn. repeat split; lia.
Qed.

Lemma stationary_fire_witness :
  let st1 :=
    exec (pollESP32Endpoint Scenario.phone (currentRender Scenario.initial)
            (delivered Scenario.high) Scenario.tick1) Scenario.initial in
  alerts (run Scenario.phone Samples.steadyTicks st1)
  = [newAlertOf Scenario.phone Scenario.tick1 Scenario.high]
  /\ scheduled (run Scenario.phone Samples.steadyTicks st1)
     = notificationContent (newAlertOf Scenario.phone Scenario.tick1 Scenario.high)
       :: scheduled Scenario.initial.
Proof.
  apply (stationary_fire_one_alert Scenario.phone (currentRender Scenario.initial));
    [AppFacts.by_evaluation .. |].
  unfold Samples.steadyTicks.
  repeat (constructor; [cbn; try exact I; split; lia |]).
  constructor.
Defined.

(** X2.  The poller keeps its alerts apart.  When the alerts of a store
    are active and pairwise at least 0.0001 degree apart on some axis,
    they still are after any run of ticks and clearings of the history
    (the test button aside): a tick inserts an alert only where no active
    alert lies within 0.0001 degree on both axes. *)
Theorem poller_keeps_alerts_apart (env : Env) (actions : list Action) :
  forall st : State,
    Forall (fun a => alert_status a = active) (alerts st) ->
    separated (alerts st) ->
    Forall pollOrClear actions ->
    separated (alerts (run env actions st))
    /\ Forall (fun a => alert_status a = active) (alerts (run env actions st)).
Proof.
  induction actions as [| a rest IH]; intros st Hact Hsep Hacts; [now split |].
  inversion Hacts as [| ? ? Ha Hrest]; subst. cbn [run].
  destruct a as [r net now | |]; cbn [pollOrClear] in Ha; try contradiction;
    cbn [perform].
  - destruct (poll_step env r net now st)
      as [Hsame | (status & d & Hnet & _ & _ & _ & [[He Hex] | [He Hex]])];
      [rewrite Hsame | rewrite Hex | rewrite Hex]; apply IH; try assumption.
    + cbn [alerts withNewAlert withFingerprint]. constructor; [reflexivity | exact Hact].
    + cbn [alerts withNewAlert withFingerprint separated]. split; [| exact Hsep].
      now apply existsb_false_apart.
  - apply IH; [constructor | exact I | assumption].
Qed.

Lemma poller_keeps_alerts_apart_witness :
  separated (alerts (run Scenario.phone Samples.pollRun Scenario.initial))
  /\ Forall (fun a => alert_status a = active)
            (alerts (run Scenario.phone Samples.pollRun Scenario.initial)).
Proof.
  apply poller_keeps_alerts_apart.
  - constructor.
  - exact I.
  - repeat constructor.
Defined.

(** X3.  Without clearing the history, alerts and notifications only
    grow, and in step: after any run of ticks and presses of the test
    button the store is the old store with the new alerts in front, the
    notifications are the old ones with exactly the notification of each
    new alert in front, in the same order, and the alert shown is the
    newest of the new alerts, if there is one. *)
Theorem new_alerts_are_notified_once (env : Env) (actions : list Action) :
  forall st : State,
    Forall keepsHistory actions ->
    exists new,
      alerts (run env actions st) = (new ++ alerts st)%list
      /\ scheduled (run env actions st)
         = (map notificationContent new ++ scheduled st)%list
      /\ showAlert (run env actions st)
         = match new with
           | [] => showAlert st
           | newest :: _ => Some newest
           end.
Proof.
  induction actions as [| a rest IH]; intros st Hacts.
  { exists []. repeat split. }
  inversion Hacts as [| ? ? Ha Hrest]; subst. cbn [run].
  assert (Hstep : exec (perform env a) st = st
                  \/ (exists h, exec (perform env a) st = withFingerprint h st)
                  \/ exists x h, exec (perform env a) st
                                 = withNewAlert x (withFingerprint h st)).
  { destruct a as [r net now | draws now |]; cbn [keepsHistory] in Ha;
      try contradiction; cbn [perform].
    - destruct (poll_step env r net now st)
        as [Hsame | (status & d & _ & _ & _ & _ & [[_ Hex] | [_ Hex]])];
        [now left | right; left; eauto | right; right; eauto].
    - destruct (generate_step draws now st) as [Hsame | (x & _ & _ & _ & Hex)];
        [now left |].
      right; right. exists x, (lastAlertHash st).
      now rewrite AppFacts.withFingerprint_same. }
  destruct Hstep as [Hs | [(h & Hs) | (x & h & Hs)]]; rewrite Hs;
    destruct (IH (exec (perform env a) st) Hrest) as (new & Hal & Hsch & Hshow);
    rewrite Hs in Hal, Hsch, Hshow.
  - exists new. repeat split; assumption.
  - exists new. repeat split; assumption.
  - exists (new ++ [x])%list. cbn [alerts scheduled showAlert withNewAlert withFingerprint]
      in Hal, Hsch, Hshow.
    split; [| split].
    + rewrite Hal, <- app_assoc. reflexivity.
    + rewrite Hsch, map_app, <- app_assoc. reflexivity.
    + rewrite Hshow. destruct new; reflexivity.
Qed.

Lemma new_alerts_are_notified_once_witness :
  exists new,
    alerts (run Scenario.phone Samples.busyRun Scenario.initial)
    = (new ++ alerts Scenario.initial)%list
    /\ scheduled (run Scenario.phone Samples.busyRun Scenario.initial)
       = (map notificationContent new ++ scheduled Scenario.initial)%list
    /\ showAlert (run Scenario.phone Samples.busyRun Scenario.initial)
       = match new with
         | [] => showAlert Scenario.initial
         | newest :: _ => Some newest
         end.
Proof.
  apply new_alerts_are_notified_once. repeat constructor.
Defined.

(** What an action does to the alerts: nothing, or it inserts one active
    alert whose identifier is the clock reading of the action, or it
    removes them all. *)
Lemma perform_alerts (env : Env) (a : Action) (st : State) :
  alerts (exec (perform env a) st) = alerts st
  \/ (exists x now,
        alert_status x = active /\ alert_id x = now
        /\ (forall t, clockAdvances t [a] -> t < now)
        /\ alerts (exec (perform env a) st) = x :: alerts st)
  \/ (a = ClearHistory /\ alerts (exec (perform env a) st) = []).
Proof.
  destruct a as [r net now | draws now |]; cbn [perform].
  - destruct (poll_step env r net now st)
      as [Hsame | (status & d & _ & _ & _ & _ & [[_ Hex] | [_ Hex]])];
      rewrite ?Hsame, ?Hex; [now left | now left |].
    right; left. exists (newAlertOf env now d), now.
    split; [reflexivity | split; [reflexivity | split; [| reflexivity]]].
    intros t [Ht _]. exact Ht.
  - destruct (generate_step draws now st) as [Hsame | (x & Hid & Hact & _ & Hex)];
      rewrite ?Hsame, ?Hex; [now left |].
    right; left. exists x, now.
    split; [exact Hact | split; [exact Hid | split; [| reflexivity]]].
    intros t [Ht _]. exact Ht.
  - right; right. split; reflexivity.
Qed.

Lemma filter_all (l : list FireAlert) :
  Forall (fun a => alert_status a = active) l -> List.filter isActive l = l.
Proof.
  induction 1 as [| a l Ha _ IH]; [reflexivity |].
  cbn [List.filter]. unfold isActive at 1. now rewrite Ha, IH.
Qed.

(** X4.  No action resolves an alert.  When every alert of a store is
    active, every alert is active after any run of ticks, presses of the
    test button and clearings of the history, so the list of the home
    page (the active alerts) is the whole history and its counter is the
    number of alerts. *)
Theorem alerts_stay_active (env : Env) (actions : list Action) :
  forall st : State,
    Forall (fun a => alert_status a = active) (alerts st) ->
    Forall (fun a => alert_status a = active) (alerts (run env actions st))
    /\ activeAlerts (run env actions st) = alerts (run env actions st)
    /\ length (activeAlerts (run env actions st))
       = length (alerts (run env actions st)).
Proof.
  assert (Hinv : forall st,
             Forall (fun a => alert_status a = active) (alerts st) ->
             Forall (fun a => alert_status a = active) (alerts (run env actions st))).
  { induction actions as [| a rest IH]; intros st Hact; [exact Hact |].
    cbn [run]. apply IH.
    destruct (perform_alerts env a st)
      as [Hsame | [(x & now & Hx & _ & _ & Hins) | [_ Hclear]]].
    - now rewrite Hsame.
    - rewrite Hins. now constructor.
    - rewrite Hclear. constructor. }
  intros st Hact. specialize (Hinv st Hact).
  split; [exact Hinv |].
  unfold activeAlerts. rewrite (filter_all _ Hinv). now split.
Qed.

Lemma alerts_stay_active_witness :
  Forall (fun a => alert_status a = active)
         (alerts (run Scenario.phone Samples.busyRun Scenario.initial))
  /\ activeAlerts (run Scenario.phone Samples.busyRun Scenario.initial)
     = alerts (run Scenario.phone Samples.busyRun Scenario.initial)
  /\ length (activeAlerts (run Scenario.phone Samples.busyRun Scenario.initial))
     = length (alerts (run Scenario.phone Samples.busyRun Scenario.initial)).
Proof.
  apply alerts_stay_active. constructor.
Defined.

(** X5.  The newest alert comes first.  When the identifiers of a store
    strictly decrease along the list and none is later than [t], and the
    clock readings of a run strictly increase from [t] on, the
    identifiers still strictly decrease along the list after the run: an
    alert is always inserted at the head. *)
Theorem newest_alert_first (env : Env) (actions : list Action) :
  forall (t : Z) (st : State),
    Forall (fun a => alert_id a <= t) (alerts st) ->
    newestFirst (alerts st) ->
    clockAdvances t actions ->
    newestFirst (alerts (run env actions st)).
Proof.
  induction actions as [| a rest IH]; intros t st Hb Hs Hclock; [exact Hs |].
  cbn [run].
  destruct (perform_alerts env a st)
    as [Hsame | [(x & now & _ & Hid & Hnow & Hins) | [Ha Hclear]]].
  - destruct a as [r net now | draws now |]; cbn [clockAdvances] in Hclock.
    + destruct Hclock as [Hlt Hrest]. apply (IH now); rewrite ?Hsame; try assumption.
      eapply Forall_impl; [exact Hb |]. cbn. intros; lia.
    + destruct Hclock as [Hlt Hrest]. apply (IH now); rewrite ?Hsame; try assumption.
      eapply Forall_impl; [exact Hb |]. cbn. intros; lia.
    + apply (IH t); rewrite ?Hsame; assumption.
  - assert (Hlt : t < now).
    { apply Hnow. destruct a; cbn [clockAdvances] in *; tauto. }
    assert (Hrest : clockAdvances now rest).
    { destruct a as [r net now' | draws now' |].
      - destruct (poll_step env r net now' st)
          as [Hsame | (status & d & _ & _ & _ & _ & [[_ Hex] | [_ Hex]])];
          cbn [perform] in Hins.
        + rewrite Hsame in Hins. exfalso.
          apply (f_equal (@length FireAlert)) in Hins. cbn in Hins. lia.
        + rewrite Hex in Hins. exfalso.
          apply (f_equal (@length FireAlert)) in Hins. cbn in Hins. lia.
        + rewrite Hex in Hins. cbn in Hins. injection Hins as Hx.
          subst x. cbn in Hid. subst now'. now destruct Hclock.
      - destruct (generate_step draws now' st) as [Hsame | (y & Hy & _ & _ & Hex)];
          cbn [perform] in Hins.
        + rewrite Hsame in Hins. exfalso.
          apply (f_equal (@length FireAlert)) in Hins. cbn in Hins. lia.
        + rewrite Hex in Hins. cbn in Hins. injection Hins as Hx.
          subst x. rewrite Hy in Hid. subst now'. now destruct Hclock.
      - cbn [perform] in Hins. exfalso.
        apply (f_equal (@length FireAlert)) in Hins. cbn in Hins. lia. }
    apply (IH now); rewrite ?Hins; try assumption.
    + constructor; [lia |]. eapply Forall_impl; [exact Hb |]. cbn. intros; lia.
    + cbn [newestFirst]. split; [| exact Hs].
      eapply Forall_impl; [exact Hb |]. cbn. intros; lia.
  - subst a. cbn [clockAdvances] in Hclock.
    apply (IH t); rewrite ?Hclear; [constructor | exact I | exact Hclock].
Qed.

Lemma newest_alert_first_witness :
  newestFirst (alerts (run Scenario.phone Samples.busyRun Scenario.initial)).
Proof.
  apply (newest_alert_first Scenario.phone Samples.busyRun 0).
  - constructor.
  - exact I.
  - cbn. repeat split; vm_compute; reflexivity.
Defined.

End RunFacts.

(** ** Further properties of the client: the interval and the address *)

Module IntervalFacts.

Import JS App Effects.

(** X6.  Clearing the history lets the same fire in again.  The
    interval runs the function of the render in which the poller was
    started, and compares with the fingerprint of that render.  So when
    the history is cleared, the next tick with a fire response whose hash
    is not that fingerprint inserts and notifies its alert again, even
    when the hash is the stored fingerprint (the response was the last
    one processed); a function that compares with the stored fingerprint
    would leave the cleared state as it is. *)
Theorem cleared_alert_comes_back (env : Env) (r : Render) (d : ESP32FireAlert)
    (now : Z) (st : State) :
  platformOS env <> "web" ->
  seen_esp32IpAddress r <> EmptyString ->
  data_severity d <> EmptyString ->
  data_severity d <> "NONE" ->
  pollingIntervalRef st = Some r ->
  alertHash d <> seen_lastAlertHash r ->
  lastAlertHash st = alertHash d ->
  let cleared := exec clearAlertHistory st in
  let st' := exec (intervalTick env (delivered d, now)) cleared in
  alerts cleared = []
  /\ alerts st' = [newAlertOf env now d]
  /\ scheduled st' = notificationContent (newAlertOf env now d) :: scheduled st
  /\ showAlert st' = Some (newAlertOf env now d)
  /\ exec (pollESP32Endpoint env (currentRender cleared) (delivered d) now) cleared
     = cleared.
Proof.
  intros Hweb Hip Hsev Hnone Href Hh Hlast cleared st'.
  assert (Hc : cleared = mkState [] None (lastAlertHash st) (esp32IpAddress st)
                           (isPolling st) (pollingIntervalRef st) (scheduled st))
    by reflexivity.
  assert (Hst' : st' = withNewAlert (newAlertOf env now d)
                         (withFingerprint (alertHash d) cleared)).
  { subst st'. unfold exec, intervalTick. cbn [fst snd].
    replace (pollingIntervalRef cleared) with (Some r) by (rewrite Hc; now cbn).
    pose proof (AppFacts.poll_fire env r 200 d now cleared Hweb Hip eq_refl Hsev
                  Hnone Hh) as Hf.
    unfold exec, delivered in *. rewrite Hf. rewrite Hc. reflexivity. }
  split; [now rewrite Hc |].
  split; [now rewrite Hst', Hc |].
  split; [now rewrite Hst', Hc |].
  split; [now rewrite Hst' |].
  apply AppFacts.poll_same_hash. rewrite Hc. cbn. congruence.
Qed.

Lemma cleared_alert_comes_back_witness :
  let cleared := exec clearAlertHistory Samples.watching in
  let st' :=
    exec (intervalTick Scenario.phone (delivered Scenario.high, Scenario.tick3))
         cleared in
  alerts cleared = []
  /\ alerts st' = [newAlertOf Scenario.phone Scenario.tick3 Scenario.high]
  /\ scheduled st'
     = notificationContent (newAlertOf Scenario.phone Scenario.tick3 Scenario.high)
       :: scheduled Samples.watching
  /\ showAlert st' = Some (newAlertOf Scenario.phone Scenario.tick3 Scenario.high)
  /\ exec (pollESP32Endpoint Scenario.phone (currentRender cleared)
             (delivered Scenario.high) Scenario.tick3) cleared
     = cleared.
Proof.
  apply (cleared_alert_comes_back Scenario.phone (currentRender Scenario.initial));
    [AppFacts.by_evaluation ..].
Defined.

(** X7.  Changing the address replaces the interval.  When the address
    is set to a new value, the old interval is dropped; on a device and
    with a non-empty address exactly the interval of the new render is
    left, which holds the new address and the fingerprint stored at that
    moment, and the poller counts as running; with an empty address, or
    on the web, no interval is left, the poller counts as stopped, and no
    later tick changes anything.  Alerts and notifications change only
    by what the poll started at once does. *)
Theorem address_change_replaces_interval (env : Env) (ip : string)
    (net : FetchOutcome) (now : Z) (st : State) :
  ip <> esp32IpAddress st ->
  let st' := exec (changeAddress env ip net now) st in
  esp32IpAddress st' = ip
  /\ completion (changeAddress env ip net now) st = Normal tt
  /\ (ip <> EmptyString -> platformOS env <> "web" ->
      pollingIntervalRef st' = Some (mkRender ip (lastAlertHash st))
      /\ isPolling st' = true
      /\ st' = exec (pollESP32Endpoint env (mkRender ip (lastAlertHash st)) net now)
                    (mkState (alerts st) (showAlert st) (lastAlertHash st) ip true
                             (Some (mkRender ip (lastAlertHash st))) (scheduled st)))
  /\ (ip = EmptyString \/ platformOS env = "web" ->
      st' = mkState (alerts st) (showAlert st) (lastAlertHash st) ip false None
                    (scheduled st)
      /\ forall ticks, runTicks env ticks st' = (Normal tt, st')).
Proof.
  intros Hne st'.
  assert (Hunfold : changeAddress env ip net now st
                    = addressEffect env net now
                        (mkState (alerts st) (showAlert st) (lastAlertHash st) ip
                                 false None (scheduled st))).
  { unfold changeAddress. rewrite (AppFacts.eqb_false _ _ Hne). reflexivity. }
  set (mid := mkState (alerts st) (showAlert st) (lastAlertHash st) ip false None
                      (scheduled st)) in *.
  assert (Hon : ip <> EmptyString -> platformOS env <> "web" ->
                changeAddress env ip net now st
                = pollESP32Endpoint env (mkRender ip (lastAlertHash st)) net now
                    (mkState (alerts st) (showAlert st) (lastAlertHash st) ip true
                             (Some (mkRender ip (lastAlertHash st))) (scheduled st))).
  { intros Hip Hweb. rewrite Hunfold. unfold addressEffect. cbn [esp32IpAddress mid].
    rewrite (AppFacts.truthy_true _ Hip), (AppFacts.eqb_false _ _ Hweb).
    reflexivity. }
  assert (Hoff : ip = EmptyString \/ platformOS env = "web" ->
                 changeAddress env ip net now st = (Normal tt, mid)).
  { intros Hoff. rewrite Hunfold. unfold addressEffect. cbn [esp32IpAddress mid].
    destruct Hoff as [-> | ->]; [reflexivity |].
    cbn. now rewrite andb_false_r. }
  assert (Hip' : forall r s, esp32IpAddress (exec (pollESP32Endpoint env r net now) s)
                             = esp32IpAddress s
                             /\ pollingIntervalRef (exec (pollESP32Endpoint env r net now) s)
                                = pollingIntervalRef s
                             /\ isPolling (exec (pollESP32Endpoint env r net now) s)
                                = isPolling s).
  { intros r s.
    destruct (RunFacts.poll_step env r net now s)
      as [Hsame | (status & d & _ & _ & _ & _ & [[_ Hex] | [_ Hex]])];
      rewrite ?Hsame, ?Hex; repeat split. }
  destruct (String.eqb_spec ip EmptyString) as [Hip | Hip];
    [| destruct (String.eqb_spec (platformOS env) "web") as [Hweb | Hweb]].
  - assert (Hst' : st' = mid) by (subst st'; unfold exec; now rewrite Hoff by now left).
    split; [now rewrite Hst' |].
    split; [unfold completion; now rewrite Hoff by now left |].
    split; [intros; contradiction |].
    intros _. split; [exact Hst' |].
    intros ticks. rewrite Hst'. now apply AppFacts.stopped_poller_is_silent.
  - assert (Hst' : st' = mid) by (subst st'; unfold exec; now rewrite Hoff by now right).
    split; [now rewrite Hst' |].
    split; [unfold completion; now rewrite Hoff by now right |].
    split; [intros; contradiction |].
    intros _. split; [exact Hst' |].
    intros ticks. rewrite Hst'. now apply AppFacts.stopped_poller_is_silent.
  - assert (Hst' : st' = exec (pollESP32Endpoint env (mkRender ip (lastAlertHash st))
                                 net now)
                              (mkState (alerts st) (showAlert st) (lastAlertHash st)
                                       ip true
                                       (Some (mkRender ip (lastAlertHash st)))
                                       (scheduled st)))
      by (subst st'; unfold exec; now rewrite Hon).
    destruct (Hip' (mkRender ip (lastAlertHash st))
                (mkState (alerts st) (showAlert st) (lastAlertHash st) ip true
                         (Some (mkRender ip (lastAlertHash st))) (scheduled st)))
      as (H1 & H2 & H3).
    split; [rewrite Hst'; exact H1 |].
    split; [unfold completion; rewrite Hon by assumption; apply AppFacts.poll_completes |].
    split.
    + intros _ _. split; [rewrite Hst'; exact H2 |].
      split; [rewrite Hst'; exact H3 | exact Hst'].
    + intros [Hoff' | Hoff']; contradiction.
Qed.

Lemma address_change_witness :
  let st' :=
    exec (changeAddress Scenario.phone "192.168.4.1" (delivered Scenario.high)
            Scenario.tick3) Samples.watching in
  esp32IpAddress st' = "192.168.4.1"
  /\ pollingIntervalRef st'
     = Some (mkRender "192.168.4.1" (alertHash Scenario.high))
  /\ isPolling st' = true
  /\ alerts st' = alerts Samples.watching.
Proof.
  cbv zeta.
  pose proof (address_change_replaces_interval Scenario.phone "192.168.4.1"
                (delivered Scenario.high) Scenario.tick3 Samples.watching
                ltac:(AppFacts.by_evaluation)) as (Hip & _ & Hon & _).
  destruct (Hon ltac:(discriminate) ltac:(AppFacts.by_evaluation)) as (Href & Hpoll & _).
  split; [exact Hip |]. split; [exact Href |]. split; [exact Hpoll |].
  vm_compute. reflexivity.
Defined.

End IntervalFacts.

(** ** Properties of what the pages show *)

Module ViewFacts.

Import JS App Views Words.

(** X8.  The age shown for an alert, by the milliseconds elapsed since
    its time: less than a minute (a time in the future included) shows
    as Just now; from one minute to under an hour as the whole minutes
    elapsed, 1 to 59; from one hour to under a day as the whole hours
    elapsed, 1 to 23; from a day on, and for an invalid date, as the date
    text of the platform. *)
Theorem formatTime_bands (toLocaleDateString : Date -> string) (now t : Z) :
  (now - t < 60000 ->
     formatTime toLocaleDateString now (TimeValue t) = "Just now")
  /\ (60000 <= now - t < 3600000 ->
      formatTime toLocaleDateString now (TimeValue t)
      = decimal ((now - t) / 60000) +:+ "m ago"
      /\ 1 <= (now - t) / 60000 <= 59)
  /\ (3600000 <= now - t < 86400000 ->
      formatTime toLocaleDateString now (TimeValue t)
      = decimal ((now - t) / 3600000) +:+ "h ago"
      /\ 1 <= (now - t) / 3600000 <= 23)
  /\ (86400000 <= now - t ->
      formatTime toLocaleDateString now (TimeValue t)
      = toLocaleDateString (TimeValue t))
  /\ formatTime toLocaleDateString now InvalidDate
     = toLocaleDateString InvalidDate.
Proof.
  unfold formatTime. cbv zeta.
  set (x := now - t).
  assert (Hhours : x / 60000 / 60 = x / 3600000)
    by (rewrite Z.div_div by lia; reflexivity).
  pose proof (Z.div_mod x 60000 ltac:(lia)) as Hq.
  pose proof (Z.mod_pos_bound x 60000 ltac:(lia)) as Hr.
  pose proof (Z.div_mod x 3600000 ltac:(lia)) as Hq'.
  pose proof (Z.mod_pos_bound x 3600000 ltac:(lia)) as Hr'.
  repeat match goal with |- _ /\ _ => split end; try reflexivity; intros Hx.
  - destruct (Z.ltb_spec (x / 60000) 1); [reflexivity | lia].
  - destruct (Z.ltb_spec (x / 60000) 1); [lia |].
    destruct (Z.ltb_spec (x / 60000) 60); [split; [reflexivity | lia] | lia].
  - destruct (Z.ltb_spec (x / 60000) 1); [lia |].
    destruct (Z.ltb_spec (x / 60000) 60); [lia |].
    destruct (Z.ltb_spec (x / 60000) 1440); [| lia].
    rewrite Hhours. split; [reflexivity | lia].
  - destruct (Z.ltb_spec (x / 60000) 1); [lia |].
    destruct (Z.ltb_spec (x / 60000) 60); [lia |].
    destruct (Z.ltb_spec (x / 60000) 1440); [lia | reflexivity].
Qed.

Lemma minimum_le (l : list Z) :
  forall x, minimum x l <= x /\ Forall (fun y => minimum x l <= y) l.
Proof.
  unfold minimum. induction l as [| z l IH]; intros x; cbn [fold_left].
  - split; [lia | constructor].
  - destruct (IH (Z.min x z)) as [H1 H2]. split; [lia |].
    constructor; [lia | exact H2].
Qed.

Lemma maximum_ge (l : list Z) :
  forall x, x <= maximum x l /\ Forall (fun y => y <= maximum x l) l.
Proof.
  unfold maximum. induction l as [| z l IH]; intros x; cbn [fold_left].
  - split; [lia | constructor].
  - destruct (IH (Z.max x z)) as [H1 H2]. split; [lia |].
    constructor; [lia | exact H2].
Qed.

Lemma between_extremes (f : FireAlert -> Z) (first a : FireAlert)
    (others : list FireAlert) :
  In a (first :: others) ->
  minimum (f first) (map f others) <= f a <= maximum (f first) (map f others).
Proof.
  destruct (minimum_le (map f others) (f first)) as [Hmin Hmins].
  destruct (maximum_ge (map f others) (f first)) as [Hmax Hmaxs].
  intros [<- | Hin]; [lia |].
  rewrite Forall_forall in Hmins, Hmaxs.
  assert (Hfa : f a ∈ map f others).
  { apply list_elem_of_In, in_map_iff. now exists a. }
  specialize (Hmins _ Hfa). specialize (Hmaxs _ Hfa). lia.
Qed.

(** X9.  The region of the map holds every alert.  When no alert is
    focused, every alert of the list lies within half the span of the
    region from its centre, in latitude and in longitude, and each span
    is at least 0.05 degree. *)
Theorem map_region_holds_every_alert (alerts : list FireAlert) (a : FireAlert) :
  In a alerts ->
  let region := getMapRegion alerts None in
  2 * Z.abs (2 * lat (alert_coordinates a) - latitude region)
    <= latitudeDelta region
  /\ 2 * Z.abs (2 * lng (alert_coordinates a) - longitude region)
     <= longitudeDelta region
  /\ 100000 <= latitudeDelta region
  /\ 100000 <= longitudeDelta region.
Proof.
  intros Hin. destruct alerts as [| first others]; [contradiction |].
  cbn [getMapRegion]. cbv zeta. cbn [latitude longitude latitudeDelta longitudeDelta].
  pose proof (between_extremes (fun x => lat (alert_coordinates x)) first a others Hin)
    as Hlat.
  pose proof (between_extremes (fun x => lng (alert_coordinates x)) first a others Hin)
    as Hlng.
  cbv beta in Hlat, Hlng.
  set (minLat := minimum (lat (alert_coordinates first)) _) in *.
  set (maxLat := maximum (lat (alert_coordinates first)) _) in *.
  set (minLng := minimum (lng (alert_coordinates first)) _) in *.
  set (maxLng := maximum (lng (alert_coordinates first)) _) in *.
  unfold orTenth.
  destruct (Z.eqb_spec (3 * (maxLat - minLat)) 0);
    destruct (Z.eqb_spec (3 * (maxLng - minLng)) 0); cbv iota; lia.
Qed.

Lemma map_region_witness :
  let alerts := alerts (run Scenario.phone Samples.busyRun Scenario.initial) in
  let region := getMapRegion alerts None in
  2 * Z.abs (2 * 16615000 - latitude region) <= latitudeDelta region
  /\ 2 * Z.abs (2 * 120316000 - longitude region) <= longitudeDelta region
  /\ 100000 <= latitudeDelta region
  /\ 100000 <= longitudeDelta region.
Proof.
  apply (map_region_holds_every_alert
           (alerts (run Scenario.phone Samples.busyRun Scenario.initial))
           (newAlertOf Scenario.phone Scenario.tick1 Scenario.high)).
  vm_compute. tauto.
Defined.

(** X10.  The current time stands in for the time of a response exactly
    when its time text has no space.  Without a space the parser answers
    the current time; with a space its answer does not depend on the
    current time: it is the date the fields make, valid or not. *)
Theorem current_time_only_without_space (env : Env) (now now' : Z)
    (timestamp : string) :
  (hasSpace timestamp = false ->
     parseESP32Timestamp env now timestamp = TimeValue now)
  /\ (hasSpace timestamp = true ->
      parseESP32Timestamp env now timestamp
      = parseESP32Timestamp env now' timestamp).
Proof.
  assert (Hsplit : forall s,
             (hasSpace s = false -> split " " s = [s])
             /\ (hasSpace s = true ->
                 exists datePart timePart rest,
                   split " " s = datePart :: timePart :: rest)).
  { induction s as [| c s [IH1 IH2]]; cbn [hasSpace split].
    - split; [reflexivity | discriminate].
    - destruct (Ascii.eqb c " ") eqn:Hc; cbn [orb]; split; try discriminate.
      + intros _. destruct (split " " s) as [| p ps] eqn:Hs; eauto.
        destruct (hasSpace s); [destruct (IH2 eq_refl) as (? & ? & ? & ?) |
                                 pose proof (IH1 eq_refl)]; congruence.
      + intros H. now rewrite (IH1 H).
      + intros H. destruct (IH2 H) as (dp & tp & rest & ->). eauto. }
  rewrite !AppFacts.parseESP32Timestamp_cases.
  destruct (Hsplit timestamp) as [H1 H2]. split; intros H.
  - now rewrite (H1 H).
  - destruct (H2 H) as (dp & tp & rest & ->). reflexivity.
Qed.

End ViewFacts.

(** ** From the sensor to the notification *)

Module LinkFacts.

Import JS App Views Link.

(** An alert with one of the four severities has its own notification
    profile and its own colours. *)
Lemma known_severity_is_served (a : FireAlert) :
  In (alert_severity a) severities ->
  (exists p, selectedConfig a = Own p)
  /\ (exists c, getSeverityMarkerColor (alert_severity a) = Text c /\ c <> "#6b7280")
  /\ (exists c, getSeverityColor (alert_severity a) = Text c /\ c <> "bg-gray-500")
  /\ (exists c, getSeverityBg (alert_severity a) = Text c
                /\ c <> "bg-gray-50 border-gray-200").
Proof.
  unfold selectedConfig.
  intros [H | [H | [H | [H | []]]]]; rewrite <- H;
    (split; [eexists; reflexivity |]);
    (split; [eexists; split; [reflexivity | discriminate] |]);
    (split; eexists; split; [reflexivity | discriminate | reflexivity | discriminate]).
Qed.

(** The body of the firmware's response spells [snapshotOf]. *)
Lemma handleFireAlert_spells_snapshot (sensorValue : Z)
    (gps : Firmware.GpsLocation) (ms : Z) :
  let d := snapshotOf sensorValue gps ms in
  Firmware.res_body (Firmware.handleFireAlert sensorValue gps ms)
  = Firmware.snapshotJson (data_severity d) (data_time d)
      (if Firmware.isGPSValid gps then fixedDecimals 6 (data_latitude d)
       else numberToString (data_latitude d))
      (if Firmware.isGPSValid gps then fixedDecimals 6 (data_longitude d)
       else numberToString (data_longitude d)).
Proof.
  cbv zeta. rewrite FirmwareFacts.handleFireAlert_body. unfold snapshotOf.
  cbn [data_severity data_time data_latitude data_longitude].
  destruct (Firmware.isGPSValid gps); reflexivity.
Qed.

(** X11.  From the reading to the notification.  The body the firmware
    sends for a sensor reading spells the snapshot [snapshotOf].  Let the
    client, with no alert and an empty fingerprint, process that
    snapshot.  A reading of 3000 or more changes nothing.  A reading
    below 3000 makes one alert, at the fix when it is valid and at the
    configured position otherwise, with one of the four severities of the
    client, and one notification, whose title is that of the severity's
    own profile; the severity has its own marker colour.  So every level the firmware reports with fire is one the
    client knows. *)
Theorem firmware_fire_is_alerted (sensorValue : Z) (gps : Firmware.GpsLocation)
    (ms : Z) (env : Env) (r : Render) (now : Z) (st : State) :
  platformOS env <> "web" ->
  seen_esp32IpAddress r <> EmptyString ->
  seen_lastAlertHash r = EmptyString ->
  alerts st = [] ->
  let d := snapshotOf sensorValue gps ms in
  let st' := exec (pollESP32Endpoint env r (delivered d) now) st in
  Firmware.res_body (Firmware.handleFireAlert sensorValue gps ms)
  = Firmware.snapshotJson (data_severity d) (data_time d)
      (if Firmware.isGPSValid gps then fixedDecimals 6 (data_latitude d)
       else numberToString (data_latitude d))
      (if Firmware.isGPSValid gps then fixedDecimals 6 (data_longitude d)
       else numberToString (data_longitude d))
  /\ (3000 <= sensorValue -> st' = st)
  /\ (sensorValue < 3000 ->
      exists a p c,
        alerts st' = [a]
        /\ scheduled st' = notificationContent a :: scheduled st
        /\ alert_coordinates a
           = (if Firmware.isGPSValid gps
              then mkCoordinates (Firmware.loc_lat gps) (Firmware.loc_lng gps)
              else mkCoordinates 16615000 120316000)
        /\ In (alert_severity a) severities
        /\ selectedConfig a = Own p
        /\ content_title (notificationContent a) = Some (title p)
        /\ getSeverityMarkerColor (alert_severity a) = Text c
        /\ c <> "#6b7280").
Proof.
  intros Hweb Hip Hseen Hempty d st'.
  split; [apply handleFireAlert_spells_snapshot |]. split.
  - intros Hr. subst st' d. unfold delivered. apply AppFacts.poll_no_fire. right.
    unfold snapshotOf. cbn [data_severity].
    unfold Firmware.classifySeverity, Firmware.EXTREME_THRESHOLD,
      Firmware.HIGH_THRESHOLD, Firmware.MODERATE_THRESHOLD, Firmware.LOW_THRESHOLD.
    repeat match goal with
           | |- context [ ?x <? ?y ] => destruct (Z.ltb_spec x y); try lia
           end.
    reflexivity.
  - intros Hr.
    assert (Hsev : In (toLowerCase (data_severity d)) severities
                   /\ data_severity d <> EmptyString
                   /\ data_severity d <> "NONE").
    { subst d. unfold snapshotOf. cbn [data_severity].
      unfold Firmware.classifySeverity, Firmware.EXTREME_THRESHOLD,
        Firmware.HIGH_THRESHOLD, Firmware.MODERATE_THRESHOLD, Firmware.LOW_THRESHOLD.
      repeat match goal with
             | |- context [ ?x <? ?y ] => destruct (Z.ltb_spec x y); try lia
             end;
        (split; [cbn; tauto | split; discriminate]). }
    destruct Hsev as (Hin & Hne & Hnone).
    set (a := newAlertOf env now d).
    assert (Hst' : st' = withNewAlert a (withFingerprint (alertHash d) st)).
    { subst st'. unfold delivered.
      rewrite AppFacts.poll_fire; try assumption; try reflexivity.
      - rewrite Hempty. reflexivity.
      - rewrite Hseen. now apply AppFacts.alertHash_nonempty. }
    destruct (known_severity_is_served a Hin) as ((p & Hp) & (c & Hc & Hcne) & _).
    exists a, p, c.
    split; [rewrite Hst'; cbn; now rewrite Hempty |].
    split; [rewrite Hst'; reflexivity |].
    split; [subst a d; unfold snapshotOf; cbn;
            destruct (Firmware.isGPSValid gps); reflexivity |].
    split; [exact Hin |].
    split; [exact Hp |].
    split; [unfold notificationContent; cbn [content_title]; now rewrite Hp |].
    split; [exact Hc | exact Hcne].
Qed.

Lemma firmware_fire_witness :
  let d := snapshotOf 700 Scenario.fix_stale 77700000 in
  let st' :=
    exec (pollESP32Endpoint Scenario.phone (currentRender Scenario.initial)
            (delivered d) Scenario.tick1) Scenario.initial in
  alerts st' = [newAlertOf Scenario.phone Scenario.tick1 Scenario.high]
  /\ exists a p c,
       alerts st' = [a]
       /\ scheduled st' = notificationContent a :: scheduled Scenario.initial
       /\ alert_coordinates a
          = (if Firmware.isGPSValid Scenario.fix_stale
             then mkCoordinates (Firmware.loc_lat Scenario.fix_stale)
                                (Firmware.loc_lng Scenario.fix_stale)
             else mkCoordinates 16615000 120316000)
       /\ In (alert_severity a) severities
       /\ selectedConfig a = Own p
       /\ content_title (notificationContent a) = Some (title p)
       /\ getSeverityMarkerColor (alert_severity a) = Text c
       /\ c <> "#6b7280".
Proof.
  cbv zeta. split; [vm_compute; reflexivity |].
  pose proof (firmware_fire_is_alerted 700 Scenario.fix_stale 77700000 Scenario.phone
                (currentRender Scenario.initial) Scenario.tick1 Scenario.initial
                ltac:(AppFacts.by_evaluation) ltac:(AppFacts.by_evaluation)
                ltac:(AppFacts.by_evaluation) ltac:(AppFacts.by_evaluation))
    as (_ & _ & Hfire).
  apply Hfire. lia.
Defined.


End LinkFacts.

(** ** The fingerprint determines the response *)

Module HashFacts.

Import JS App Words Digits.

(** *** Decimal digits *)

Lemma digitValue_range (c : ascii) (k : Z) :
  digitValue c = Some k -> 0 <= k <= 9.
Proof.
  unfold digitValue.
  destruct ((48 <=? nat_of_ascii c)%nat && (nat_of_ascii c <=? 57)%nat) eqn:H;
    [| discriminate].
  apply andb_true_iff in H. destruct H as [H1 H2].
  apply Nat.leb_le in H1. apply Nat.leb_le in H2. intros [= <-]. lia.
Qed.

Lemma digit_not (c sep : ascii) (k : Z) :
  digitValue sep = None -> digitValue c = Some k -> Ascii.eqb c sep = false.
Proof.
  intros Hsep Hc. destruct (Ascii.eqb_spec c sep) as [-> |]; congruence.
Qed.

Lemma allDigits_occurs (sep : ascii) (s : string) :
  digitValue sep = None -> allDigits s = true -> occurs sep s = false.
Proof.
  intros Hsep. induction s as [| c s IH]; cbn [allDigits occurs]; [reflexivity |].
  destruct (digitValue c) as [k |] eqn:Hc; [| discriminate].
  intros H. now rewrite (digit_not c sep k Hsep Hc), IH.
Qed.

Lemma allDigits_app (a b : string) :
  allDigits (a +:+ b) = allDigits a && allDigits b.
Proof.
  induction a as [| c a IH]; [reflexivity |].
  change (allDigits (String c (a +:+ b)) = allDigits (String c a) && allDigits b).
  cbn [allDigits]. destruct (digitValue c); [exact IH | reflexivity].
Qed.

Lemma allDigits_zeros (k : nat) : allDigits (zeros k) = true.
Proof. induction k; [reflexivity | exact IHk]. Qed.

(** The digits of a number of the Standard Library are digits, and their
    value is the number. *)
Lemma string_of_uint_digits (d : Decimal.uint) :
  allDigits (NilEmpty.string_of_uint d) = true.
Proof. induction d; cbn; assumption || reflexivity. Qed.

Lemma digitsValue_acc (d : Decimal.uint) :
  forall acc : positive,
    digitsValue (Z.pos acc) (NilEmpty.string_of_uint d)
    = Some (Z.pos (Pos.of_uint_acc d acc)).
Proof.
  induction d; intros acc; cbn [NilEmpty.string_of_uint digitsValue Pos.of_uint_acc];
    [reflexivity | ..];
    match goal with
    | |- context [ digitValue ?c ] =>
        let v := eval vm_compute in (digitValue c) in
        change (digitValue c) with v
    end;
    cbv iota;
    match goal with
    | |- digitsValue ?z _ = Some (Z.pos (Pos.of_uint_acc _ ?p)) =>
        replace z with (Z.pos p) by lia
    end; apply IHd.
Qed.

Lemma digitsValue_of_uint (d : Decimal.uint) :
  digitsValue 0 (NilEmpty.string_of_uint d) = Some (Z.of_N (Pos.of_uint d)).
Proof.
  induction d; cbn [NilEmpty.string_of_uint digitsValue Pos.of_uint];
    [reflexivity | exact IHd | ..];
    match goal with
    | |- context [ digitValue ?c ] =>
        let v := eval vm_compute in (digitValue c) in
        change (digitValue c) with v
    end;
    cbv iota; cbn [Z.of_N];
    match goal with
    | |- digitsValue ?z _ = Some (Z.pos (Pos.of_uint_acc _ ?p)) =>
        change z with (Z.pos p)
    end; apply digitsValue_acc.
Qed.

Lemma decimal_value (n : Z) : 0 <= n -> digitsValue 0 (decimal n) = Some n.
Proof.
  intros Hn. unfold decimal.
  pose proof (DecimalN.Unsigned.of_to (Z.to_N n)) as Hof.
  pose proof (digitsValue_of_uint (N.to_uint (Z.to_N n))) as Hv.
  unfold N.of_uint in Hof. rewrite Hof, Z2N.id in Hv by exact Hn.
  destruct (N.to_uint (Z.to_N n)) eqn:E; exact Hv.
Qed.

Lemma decimal_digits (n : Z) : allDigits (decimal n) = true.
Proof.
  unfold decimal.
  pose proof (string_of_uint_digits (N.to_uint (Z.to_N n))) as Hd.
  destruct (N.to_uint (Z.to_N n)); exact Hd.
Qed.

Lemma decimal_inj (n m : Z) : 0 <= n -> 0 <= m -> decimal n = decimal m -> n = m.
Proof.
  intros Hn Hm H. pose proof (decimal_value n Hn) as Vn.
  rewrite H, (decimal_value m Hm) in Vn. congruence.
Qed.

(** The text of a number starts with a digit. *)
Lemma decimal_head (n : Z) :
  exists c rest k, decimal n = String c rest /\ digitValue c = Some k.
Proof.
  pose proof (decimal_digits n) as Hd. unfold decimal in *.
  destruct (N.to_uint (Z.to_N n)); cbn in *;
    try (eexists; eexists; eexists; split; [reflexivity | reflexivity]).
Qed.

Lemma digitsValue_lower (s : string) :
  forall acc v, 0 <= acc -> digitsValue acc s = Some v ->
                acc * 10 ^ Z.of_nat (String.length s) <= v.
Proof.
  induction s as [| c s IH]; intros acc v Hacc; cbn [digitsValue String.length].
  - intros [= <-]. cbn. lia.
  - destruct (digitValue c) as [k |] eqn:Hc; [| discriminate]. intros Hv.
    pose proof (digitValue_range c k Hc) as Hk.
    specialize (IH (10 * acc + k) v ltac:(lia) Hv).
    rewrite Nat2Z.inj_succ, Z.pow_succ_r by lia.
    assert (0 < 10 ^ Z.of_nat (String.length s)) by (apply Z.pow_pos_nonneg; lia).
    nia.
Qed.

Lemma nzhead_head (d l : Decimal.uint) : Decimal.nzhead d <> Decimal.D0 l.
Proof. induction d; cbn; congruence. Qed.

(** A number under a million has at most six digits. *)
Lemma decimal_length (f : Z) :
  0 <= f < 1000000 -> (String.length (decimal f) <= 6)%nat.
Proof.
  intros Hf. pose proof (decimal_value f ltac:(lia)) as Hv. unfold decimal in *.
  pose proof (DecimalN.Unsigned.to_of (N.to_uint (Z.to_N f))) as Hnorm.
  rewrite DecimalN.Unsigned.of_to in Hnorm.
  assert (Hbound : forall c rest k,
             digitValue c = Some k -> 1 <= k ->
             digitsValue 0 (String c rest) = Some f ->
             (String.length (String c rest) <= 6)%nat).
  { intros c rest k Hc Hk Hval. cbn [digitsValue] in Hval. rewrite Hc in Hval.
    pose proof (digitsValue_lower rest (10 * 0 + k) f ltac:(lia) Hval) as Hlow.
    assert (Hpow : 10 ^ Z.of_nat (String.length rest) < 10 ^ 6).
    { assert (0 < 10 ^ Z.of_nat (String.length rest))
        by (apply Z.pow_pos_nonneg; lia).
      change (10 ^ 6) with 1000000. nia. }
    apply Z.pow_lt_mono_r_iff in Hpow; [| lia | lia].
    cbn [String.length]. lia. }
  destruct (N.to_uint (Z.to_N f)) as [| l | l | l | l | l | l | l | l | l | l] eqn:E;
    cbn [NilZero.string_of_uint NilEmpty.string_of_uint] in *;
    try (eapply Hbound; [reflexivity | vm_compute; discriminate | exact Hv]).
  all: try (cbn; lia).
  unfold Decimal.unorm in Hnorm. cbn [Decimal.nzhead] in Hnorm.
  destruct (Decimal.nzhead l) eqn:Hl;
    try (exfalso; apply (nzhead_head l l); congruence).
  injection Hnorm as Hnil. subst l. cbn. lia.
Qed.

(** *** Padding and stripping *)

Lemma length_app (a b : string) :
  String.length (a +:+ b) = (String.length a + String.length b)%nat.
Proof.
  induction a as [| c a IH]; [reflexivity |].
  change (S (String.length (a +:+ b)) = S (String.length a + String.length b)).
  now rewrite IH.
Qed.

Lemma length_zeros (k : nat) : String.length (zeros k) = k.
Proof. induction k as [| k IH]; [reflexivity |]. cbn. now rewrite IH. Qed.

Lemma app_empty (a : string) : a +:+ EmptyString = a.
Proof.
  induction a as [| c a IH]; [reflexivity |].
  change (String c (a +:+ EmptyString) = String c a). now rewrite IH.
Qed.

Lemma occurs_app (sep : ascii) (a b : string) :
  occurs sep (a +:+ b) = occurs sep a || occurs sep b.
Proof.
  induction a as [| c a IH]; [reflexivity |].
  change (Ascii.eqb c sep || occurs sep (a +:+ b)
          = (Ascii.eqb c sep || occurs sep a) || occurs sep b).
  now rewrite IH, orb_assoc.
Qed.

Lemma digitsValue_zeros (k : nat) (s : string) :
  digitsValue 0 (zeros k +:+ s) = digitsValue 0 s.
Proof. induction k as [| k IH]; [reflexivity | exact IH]. Qed.

Lemma zeros_app_inv (t : string) (k k' : nat) :
  String.length (t +:+ zeros k) = String.length (t +:+ zeros k') -> k = k'.
Proof. rewrite !length_app, !length_zeros. lia. Qed.

(** A text is what is left of it without its trailing zeros, followed by
    zeros. *)
Lemma strip_zeros (s : string) :
  exists k, s = stripTrailingZeros s +:+ zeros k.
Proof.
  induction s as [| c s [k IH]].
  - exists 0%nat. reflexivity.
  - cbn [stripTrailingZeros].
    destruct (stripTrailingZeros s) as [| c' t] eqn:Hs.
    + destruct (Ascii.eqb_spec c "0") as [-> | Hc].
      * exists (S k). change (String "0" s = String "0" (zeros k)).
        f_equal. exact IH.
      * exists k. change (String c s = String c (zeros k)).
        f_equal. exact IH.
    + exists k. change (String c s = String c (String c' t +:+ zeros k)).
      f_equal. exact IH.
Qed.

Lemma strip_inj (s s' : string) :
  String.length s = String.length s' ->
  stripTrailingZeros s = stripTrailingZeros s' -> s = s'.
Proof.
  intros Hlen Hstrip.
  destruct (strip_zeros s) as [k Hk]. destruct (strip_zeros s') as [k' Hk'].
  rewrite Hk, Hk', Hstrip in Hlen. apply zeros_app_inv in Hlen. subst k'.
  rewrite Hk, Hk', Hstrip. reflexivity.
Qed.

Lemma strip_digits (s : string) :
  allDigits s = true -> allDigits (stripTrailingZeros s) = true.
Proof.
  intros H. destruct (strip_zeros s) as [k Hk]. rewrite Hk, allDigits_app in H.
  now apply andb_true_iff in H.
Qed.

Lemma padLeft_six (f : Z) :
  0 <= f < 1000000 ->
  String.length (padLeft 6 (decimal f)) = 6%nat
  /\ digitsValue 0 (padLeft 6 (decimal f)) = Some f
  /\ allDigits (padLeft 6 (decimal f)) = true.
Proof.
  intros Hf. pose proof (decimal_length f Hf) as Hlen. unfold padLeft.
  split; [| split].
  - rewrite length_app, length_zeros. lia.
  - rewrite digitsValue_zeros. apply decimal_value. lia.
  - rewrite allDigits_app, allDigits_zeros. apply decimal_digits.
Qed.

Lemma fracText_inj (f f' : Z) :
  0 <= f < 1000000 -> 0 <= f' < 1000000 -> fracText f = fracText f' -> f = f'.
Proof.
  intros Hf Hf' H. unfold fracText in H.
  destruct (padLeft_six f Hf) as (Hl & Hv & _).
  destruct (padLeft_six f' Hf') as (Hl' & Hv' & _).
  apply strip_inj in H; [| congruence]. rewrite H in Hv. congruence.
Qed.

Lemma fracText_digits (f : Z) : 0 <= f < 1000000 -> allDigits (fracText f) = true.
Proof.
  intros Hf. apply strip_digits. now destruct (padLeft_six f Hf) as (_ & _ & H).
Qed.

(** *** Splitting a text at a separator *)

Lemma split_at (sep : ascii) (s1 : string) :
  forall s2 r1 r2,
    occurs sep s1 = false -> occurs sep s2 = false ->
    s1 +:+ String sep r1 = s2 +:+ String sep r2 ->
    s1 = s2 /\ r1 = r2.
Proof.
  induction s1 as [| c s1 IH]; intros [| c' s2] r1 r2 H1 H2 H; cbn in *.
  - injection H as ->. now split.
  - injection H as Hc Hr. subst c'. rewrite Ascii.eqb_refl in H2. discriminate.
  - injection H as Hc Hr. subst c. rewrite Ascii.eqb_refl in H1. discriminate.
  - injection H as Hc Hr. subst c'.
    apply orb_false_iff in H1. apply orb_false_iff in H2.
    destruct (IH s2 r1 r2) as [-> ->]; [tauto | tauto | assumption |]. now split.
Qed.

(** *** The text of a coordinate *)

Lemma numberToString_parts (x : Z) :
  numberToString x
  = (if x <? 0 then "-" else EmptyString) +:+ unsignedText (Z.abs x).
Proof.
  unfold numberToString, unsignedText, fracText. cbv zeta.
  destruct (stripTrailingZeros _); reflexivity.
Qed.

Lemma unsignedText_inj (n m : Z) :
  0 <= n -> 0 <= m -> unsignedText n = unsignedText m -> n = m.
Proof.
  intros Hn Hm H. unfold unsignedText in H.
  assert (Hq : 0 <= n / 1000000) by (apply Z.div_pos; lia).
  assert (Hq' : 0 <= m / 1000000) by (apply Z.div_pos; lia).
  pose proof (Z.mod_pos_bound n 1000000 ltac:(lia)) as Hr.
  pose proof (Z.mod_pos_bound m 1000000 ltac:(lia)) as Hr'.
  pose proof (fracText_digits _ Hr) as Hd.
  pose proof (fracText_digits _ Hr') as Hd'.
  pose proof (allDigits_occurs "." _ eq_refl (decimal_digits (n / 1000000))) as Hn1.
  pose proof (allDigits_occurs "." _ eq_refl (decimal_digits (m / 1000000))) as Hm1.
  assert (Hparts : n / 1000000 = m / 1000000 /\ n mod 1000000 = m mod 1000000).
  { destruct (fracText (n mod 1000000)) as [| c rest] eqn:Ef;
      destruct (fracText (m mod 1000000)) as [| c' rest'] eqn:Ef'.
    - rewrite !app_empty in H. split; [now apply decimal_inj |].
      apply fracText_inj; congruence.
    - exfalso. rewrite app_empty in H. rewrite H, occurs_app in Hn1.
      cbn in Hn1. rewrite orb_true_r in Hn1. discriminate.
    - exfalso. rewrite app_empty in H. rewrite <- H, occurs_app in Hm1.
      cbn in Hm1. rewrite orb_true_r in Hm1. discriminate.
    - apply split_at in H; [| assumption | assumption].
      destruct H as [Hw Hf]. split; [now apply decimal_inj |].
      apply fracText_inj; congruence. }
  destruct Hparts as [Hq1 Hr1].
  rewrite (Z.div_mod n 1000000), (Z.div_mod m 1000000) by lia. congruence.
Qed.

(** The text without sign has no hyphen and starts with a digit. *)
Lemma unsignedText_shape (n : Z) :
  0 <= n ->
  occurs "-" (unsignedText n) = false
  /\ exists c rest k, unsignedText n = String c rest /\ digitValue c = Some k.
Proof.
  intros Hn. unfold unsignedText.
  pose proof (Z.mod_pos_bound n 1000000 ltac:(lia)) as Hr.
  pose proof (allDigits_occurs "-" _ eq_refl (decimal_digits (n / 1000000))) as H1.
  pose proof (allDigits_occurs "-" _ eq_refl (fracText_digits _ Hr)) as H2.
  split.
  - rewrite occurs_app, H1. destruct (fracText (n mod 1000000)); [reflexivity |].
    cbn [orb]. change ("." +:+ String a s) with (String "." (String a s)).
    cbn [occurs]. exact H2.
  - destruct (decimal_head (n / 1000000)) as (c & rest & k & Hc & Hk).
    rewrite Hc. eexists c, _, k. split; [reflexivity | exact Hk].
Qed.

(** The text of a coordinate, followed by a hyphen, can be read back. *)
Lemma number_split (x y : Z) (r r' : string) :
  numberToString x +:+ String "-" r = numberToString y +:+ String "-" r' ->
  x = y /\ r = r'.
Proof.
  rewrite !numberToString_parts.
  destruct (unsignedText_shape (Z.abs x) (Z.abs_nonneg x))
    as (Hx & cx & restx & kx & Hcx & Hkx).
  destruct (unsignedText_shape (Z.abs y) (Z.abs_nonneg y))
    as (Hy & cy & resty & ky & Hcy & Hky).
  assert (Hdigit : forall c k, digitValue c = Some k -> c <> "-"%char)
    by (intros c k Hc ->; discriminate).
  destruct (Z.ltb_spec x 0) as [Hsx | Hsx]; destruct (Z.ltb_spec y 0) as [Hsy | Hsy];
    intros H.
  - change (String "-" (unsignedText (Z.abs x) +:+ String "-" r)
            = String "-" (unsignedText (Z.abs y) +:+ String "-" r')) in H.
    injection H as H. apply split_at in H; [| assumption | assumption].
    destruct H as [Hu ->]. apply unsignedText_inj in Hu; [| lia | lia].
    split; [lia | reflexivity].
  - exfalso. rewrite Hcy in H. cbn in H. injection H as Hc _.
    apply (Hdigit cy ky Hky). congruence.
  - exfalso. rewrite Hcx in H. cbn in H. injection H as Hc _.
    apply (Hdigit cx kx Hkx). congruence.
  - cbn [String.append] in H. apply split_at in H; [| assumption | assumption].
    destruct H as [Hu ->]. apply unsignedText_inj in Hu; [| lia | lia].
    split; [lia | reflexivity].
Qed.

Lemma hasHyphen_occurs (s : string) : hasHyphen s = occurs "-" s.
Proof. induction s as [| c s IH]; [reflexivity |]. cbn. now rewrite IH. Qed.

(** X13.  The fingerprint determines the response.  Two responses whose
    severities have no hyphen (as the five of the firmware) and that
    differ in severity, latitude, longitude or time have different hashes:
    the hash can be read back into its four parts. *)
Theorem fingerprint_determines_response (d1 d2 : ESP32FireAlert) :
  hasHyphen (data_severity d1) = false ->
  hasHyphen (data_severity d2) = false ->
  d1 <> d2 ->
  alertHash d1 <> alertHash d2.
Proof.
  intros H1 H2 Hne Hhash. apply Hne. clear Hne.
  rewrite hasHyphen_occurs in H1, H2. unfold alertHash in Hhash.
  change ("-" +:+ ?x) with (String "-" x) in Hhash.
  apply split_at in Hhash; [| assumption | assumption].
  destruct Hhash as [Hsev Hrest].
  apply number_split in Hrest. destruct Hrest as [Hlat Hrest].
  apply number_split in Hrest. destruct Hrest as [Hlng Htime].
  destruct d1, d2. cbn in *. congruence.
Qed.

Lemma fingerprint_determines_witness :
  alertHash Scenario.high <> alertHash Samples.highLater.
Proof.
  apply fingerprint_determines_response; [reflexivity | reflexivity | discriminate].
Defined.

(** The severities of the firmware have no hyphen; with a hyphen in the
    severity two responses can share a hash. *)
Lemma firmware_severities_have_no_hyphen (s : Firmware.Severity) :
  hasHyphen (Firmware.severityString s) = false.
Proof. destruct s; reflexivity. Qed.

Lemma hyphen_in_severity_collides :
  alertHash (mkData "A-" "t" 1000000 0) = alertHash (mkData "A" "t" (-1000000) 0).
Proof. reflexivity. Qed.

End HashFacts.

(** ** Further properties of the client: the text of a notification *)

Module NoticeFacts.
Import JS App.

(** X15.  The notification of an alert whose severity is none of low,
    moderate, high and extreme.  When the severity is not the name of a
    member every object inherits either, the request has the title, the
    body and the sound of the low profile, with the location of the alert
    in the body.  When it is such a name (constructor, toString, ...),
    the request has no title, no body and no sound.  In both cases the
    data of the request carry the severity as the alert has it. *)
Theorem unknown_severity_notifies_as_low (alert : FireAlert) :
  alert_severity alert ∉ ["low"; "moderate"; "high"; "extreme"] ->
  let c := notificationContent alert in
  (alert_severity alert ∉ objectPrototypeKeys ->
     content_title c = Some ("Fire Alert - LOW " +:+ flame)
     /\ content_body c = Some ("Weak flame detected at " +:+ alert_location alert)
     /\ content_sound c = Some true)
  /\ (alert_severity alert ∈ objectPrototypeKeys ->
     content_title c = None /\ content_body c = None /\ content_sound c = None)
  /\ data_alertSeverity (content_data c) = alert_severity alert.
Proof.
  intros Hfour c. subst c. unfold notificationContent. cbn.
  split; [| split; [| reflexivity]].
  - intros Hproto.
    destruct (AppFacts.selectedConfig_fallback alert Hfour Hproto) as [Hsel _].
    rewrite Hsel. repeat split; reflexivity.
  - intros Hproto.
    assert (Hsel : selectedConfig alert = Inherited).
    { unfold selectedConfig, getMember at 1.
      assert (Hnone : severityConfig alert !! alert_severity alert = None).
      { assert (Hne : forall k, In k ["low"; "moderate"; "high"; "extreme"] ->
                                k <> alert_severity alert).
        { intros k Hk E. apply Hfour. rewrite <- E. now apply list_elem_of_In. }
        unfold severityConfig.
        rewrite !lookup_insert_ne by (apply Hne; cbn; tauto).
        apply lookup_singleton_ne. apply Hne; cbn; tauto. }
      rewrite Hnone. rewrite bool_decide_eq_true_2 by assumption. reflexivity. }
    rewrite Hsel. repeat split; reflexivity.
Qed.

Lemma unknown_severity_witness :
  content_title (notificationContent Scenario.unknownAlert)
    = Some ("Fire Alert - LOW " +:+ flame)
  /\ content_title (notificationContent Scenario.constructorAlert) = None.
Proof.
  split.
  - refine (proj1 (proj1 (unknown_severity_notifies_as_low Scenario.unknownAlert _) _)).
    + intros H; apply list_elem_of_In in H; cbn in H;
        repeat (destruct H as [H | H]; [discriminate H |]); exact H.
    + intros H; apply list_elem_of_In in H; cbn in H;
        repeat (destruct H as [H | H]; [discriminate H |]); exact H.
  - refine (proj1 (proj1 (proj2 (unknown_severity_notifies_as_low
                                   Scenario.constructorAlert _)) _)).
    + intros H; apply list_elem_of_In in H; cbn in H;
        repeat (destruct H as [H | H]; [discriminate H |]); exact H.
    + apply list_elem_of_In. cbn. left. reflexivity.
Defined.

End NoticeFacts.
